(** * The store schema: tables, constraints, trigger and row-level policies

    A shallow embedding of the relational schema of the store (the SQL
    script with the tables [users] ... [order_changes]).  Every table is a
    list of rows, a row is a record with one field per column, a nullable
    column has an [option] type, and a statement of the storage layer is a
    function from database states to a result.  Constraints are the boolean
    expressions of the script, evaluated in SQL's three-valued logic; the
    row-level policies are data, evaluated for a session by the rules of the
    engine.

    The pages of the storefront (help, terms, root layout) are static markup
    and the realtime publication only names tables: neither is modelled. *)

From Stdlib Require Import List String Ascii ZArith Bool Lia DecimalString.
Import ListNotations.

Local Open Scope string_scope.
Local Open Scope Z_scope.

(** ** SQL values *)

(** [text]: one [ascii] stands for one character, so that [char_length] is
    [String.length].  [integer] and [bigint] columns hold a [Z]: a number
    outside the range of its column never reaches a constraint. *)
Definition text := string.
Definition uuid := string.
Definition timestamptz := Z.

(** The value of a boolean SQL expression: [None] is NULL (unknown). *)
Definition sql_bool := option bool.

(** [jsonb] documents.  A number is kept by its text; the members of an
    object have distinct keys. *)
#[local] Unset Elimination Schemes.
Inductive jsonb : Type :=
| JNull
| JBool (b : bool)
| JNumber (digits : text)
| JString (s : text)
| JArray (items : list jsonb)
| JObject (members : list (text * jsonb)).
#[local] Set Elimination Schemes.

(** [a = b], [a >= b] and [char_length(a)]: NULL as soon as an operand is. *)
Definition sql_eq_text (a b : option text) : sql_bool :=
  match a, b with
  | Some x, Some y => Some (String.eqb x y)
  | _, _ => None
  end.

Definition sql_ge (a b : option Z) : sql_bool :=
  match a, b with
  | Some x, Some y => Some (Z.leb y x)
  | _, _ => None
  end.

Definition sql_eq_int (a b : option Z) : sql_bool :=
  match a, b with
  | Some x, Some y => Some (Z.eqb x y)
  | _, _ => None
  end.

Definition char_length (a : option text) : option Z :=
  match a with
  | Some s => Some (Z.of_nat (String.length s))
  | None => None
  end.

(** A WHERE clause or a policy expression keeps a row when it is TRUE. *)
Definition is_true (b : sql_bool) : bool :=
  match b with
  | Some true => true
  | _ => false
  end.

(** A CHECK constraint rejects a row when it is FALSE: NULL passes. *)
Definition check_passes (b : sql_bool) : bool :=
  match b with
  | Some false => false
  | _ => true
  end.

(** ** Errors and results *)

Inductive error : Type :=
| UniqueViolation (constraint : text)
| CheckViolation (constraint : text)
| ForeignKeyViolation (constraint : text)
| InvalidEnumValue (type_name : text)
| RowSecurityViolation (table : text)
| CardinalityViolation.

Inductive result (A : Type) : Type :=
| Ok (a : A)
| Err (e : error).

Arguments Ok {A} a.
Arguments Err {A} e.

Definition bind {A B : Type} (r : result A) (k : A -> result B) : result B :=
  match r with
  | Ok a => k a
  | Err e => Err e
  end.

Notation "x <- r ;; k" := (bind r (fun x => k))
  (at level 61, r at next level, right associativity).

(** ** Rows, one module per table *)

(** [auth.users] belongs to the identity provider; the schema reads its
    [id] and [raw_user_meta_data]. *)
Module AuthUsers.
Record row : Type := mk {
  id : uuid;
  raw_user_meta_data : option jsonb
}.
End AuthUsers.

Module Users.
Record row : Type := mk {
  id : uuid;
  full_name : option text;
  avatar_url : option text;
  billing_address : option jsonb;
  payment_method : option jsonb
}.
End Users.

Module Customers.
Record row : Type := mk {
  id : uuid;
  stripe_customer_id : option text
}.
End Customers.

Module Sizes.
Record row : Type := mk {
  id : Z;
  name : text;
  category : text;
  system : text
}.
End Sizes.

Module Colors.
Record row : Type := mk {
  id : Z;
  name : text
}.
End Colors.

Module Products.
Record row : Type := mk {
  id : Z;
  active : option bool;
  name : text;
  description : option text;
  image : option text
}.
End Products.

Module ProductVariants.
Record row : Type := mk {
  id : text;
  product_id : option text;
  size_id : Z;
  color_id : Z;
  quantity : option Z;
  created_at : timestamptz;
  images : option (list text);
  metadata : option jsonb
}.
End ProductVariants.

Module ProductChanges.
Record row : Type := mk {
  id : text;
  product_id : option text;
  product_variant_id : option text;
  changelog : option jsonb;
  created_at : timestamptz
}.
End ProductChanges.

Module Prices.
Record row : Type := mk {
  id : text;
  product_variant_id : option text;
  active : option bool;
  description : option text;
  unit_amount : option Z;
  currency : option text;
  metadata : option jsonb
}.
End Prices.

Module OrderStatuses.
Record row : Type := mk {
  id : Z;
  name : text
}.
End OrderStatuses.

Module Orders.
Record row : Type := mk {
  id : text;
  user_id : uuid;
  status : option text;
  total_amount : option Z;
  currency : option text;
  created_at : timestamptz;
  metadata : option jsonb
}.
End Orders.

Module OrderItems.
Record row : Type := mk {
  id : text;
  order_id : option text;
  product_variant_id : option text;
  quantity : option Z;
  unit_amount : option Z;
  currency : option text;
  metadata : option jsonb
}.
End OrderItems.

Module OrderChanges.
Record row : Type := mk {
  id : text;
  order_id : option text;
  status : option text;
  created_at : timestamptz;
  metadata : option jsonb
}.
End OrderChanges.

(** ** The database *)

Record db : Type := mkDb {
  auth_users : list AuthUsers.row;
  users : list Users.row;
  customers : list Customers.row;
  sizes : list Sizes.row;
  colors : list Colors.row;
  products : list Products.row;
  product_variants : list ProductVariants.row;
  product_changes : list ProductChanges.row;
  prices : list Prices.row;
  order_statuses : list OrderStatuses.row;
  orders : list Orders.row;
  order_items : list OrderItems.row;
  order_changes : list OrderChanges.row
}.

(** Replacing one table. *)
Definition set_auth_users (v : list AuthUsers.row) (d : db) : db :=
  mkDb v (users d) (customers d) (sizes d) (colors d) (products d)
    (product_variants d) (product_changes d) (prices d) (order_statuses d)
    (orders d) (order_items d) (order_changes d).

Definition set_users (v : list Users.row) (d : db) : db :=
  mkDb (auth_users d) v (customers d) (sizes d) (colors d) (products d)
    (product_variants d) (product_changes d) (prices d) (order_statuses d)
    (orders d) (order_items d) (order_changes d).

Definition set_customers (v : list Customers.row) (d : db) : db :=
  mkDb (auth_users d) (users d) v (sizes d) (colors d) (products d)
    (product_variants d) (product_changes d) (prices d) (order_statuses d)
    (orders d) (order_items d) (order_changes d).

Definition set_sizes (v : list Sizes.row) (d : db) : db :=
  mkDb (auth_users d) (users d) (customers d) v (colors d) (products d)
    (product_variants d) (product_changes d) (prices d) (order_statuses d)
    (orders d) (order_items d) (order_changes d).

Definition set_colors (v : list Colors.row) (d : db) : db :=
  mkDb (auth_users d) (users d) (customers d) (sizes d) v (products d)
    (product_variants d) (product_changes d) (prices d) (order_statuses d)
    (orders d) (order_items d) (order_changes d).

Definition set_products (v : list Products.row) (d : db) : db :=
  mkDb (auth_users d) (users d) (customers d) (sizes d) (colors d) v
    (product_variants d) (product_changes d) (prices d) (order_statuses d)
    (orders d) (order_items d) (order_changes d).

Definition set_product_variants (v : list ProductVariants.row) (d : db) : db :=
  mkDb (auth_users d) (users d) (customers d) (sizes d) (colors d)
    (products d) v (product_changes d) (prices d) (order_statuses d)
    (orders d) (order_items d) (order_changes d).

Definition set_product_changes (v : list ProductChanges.row) (d : db) : db :=
  mkDb (auth_users d) (users d) (customers d) (sizes d) (colors d)
    (products d) (product_variants d) v (prices d) (order_statuses d)
    (orders d) (order_items d) (order_changes d).

Definition set_prices (v : list Prices.row) (d : db) : db :=
  mkDb (auth_users d) (users d) (customers d) (sizes d) (colors d)
    (products d) (product_variants d) (product_changes d) v
    (order_statuses d) (orders d) (order_items d) (order_changes d).

Definition set_order_statuses (v : list OrderStatuses.row) (d : db) : db :=
  mkDb (auth_users d) (users d) (customers d) (sizes d) (colors d)
    (products d) (product_variants d) (product_changes d) (prices d) v
    (orders d) (order_items d) (order_changes d).

Definition set_orders (v : list Orders.row) (d : db) : db :=
  mkDb (auth_users d) (users d) (customers d) (sizes d) (colors d)
    (products d) (product_variants d) (product_changes d) (prices d)
    (order_statuses d) v (order_items d) (order_changes d).

Definition set_order_items (v : list OrderItems.row) (d : db) : db :=
  mkDb (auth_users d) (users d) (customers d) (sizes d) (colors d)
    (products d) (product_variants d) (product_changes d) (prices d)
    (order_statuses d) (orders d) v (order_changes d).

Definition set_order_changes (v : list OrderChanges.row) (d : db) : db :=
  mkDb (auth_users d) (users d) (customers d) (sizes d) (colors d)
    (products d) (product_variants d) (product_changes d) (prices d)
    (order_statuses d) (orders d) (order_items d) v.

(** ** Constraint checking *)

(** PRIMARY KEY and UNIQUE: no key occurs twice. *)
Fixpoint distinct {K : Type} (eqb : K -> K -> bool) (l : list K) : bool :=
  match l with
  | [] => true
  | k :: l' => negb (existsb (eqb k) l') && distinct eqb l'
  end.

(** The values that are there.  Of a UNIQUE constraint over nullable
    columns these are the keys that take part: a row with a NULL in one of
    the columns conflicts with no row. *)
Fixpoint non_null {K : Type} (l : list (option K)) : list K :=
  match l with
  | [] => []
  | Some k :: l' => k :: non_null l'
  | None :: l' => non_null l'
  end.

(** REFERENCES: a non-NULL value of the column is the key of a parent row. *)
Definition references {C K : Type} (eqb : K -> K -> bool)
    (col : C -> option K) (children : list C) (parent_keys : list K) : bool :=
  forallb (fun c => match col c with
                    | None => true
                    | Some k => existsb (eqb k) parent_keys
                    end) children.

Definition triple_eqb (a b : text * Z * Z) : bool :=
  let '(p, s, c) := a in
  let '(p', s', c') := b in
  String.eqb p p' && Z.eqb s s' && Z.eqb c c'.

(** The key of [unique (product_id, size_id, color_id)]. *)
Definition variant_key (v : ProductVariants.row) : option (text * Z * Z) :=
  match ProductVariants.product_id v with
  | Some p => Some (p, ProductVariants.size_id v, ProductVariants.color_id v)
  | None => None
  end.

(** [check (char_length(currency) = 3)] *)
Definition currency_check (currency : option text) : bool :=
  check_passes (sql_eq_int (char_length currency) (Some 3)).

(** [check (quantity >= 0)] *)
Definition quantity_check (quantity : option Z) : bool :=
  check_passes (sql_ge quantity (Some 0)).

(** Modelled from the spec: the type [order_status] of the column
    [orders.status] is not declared in the schema script.  The spec gives it
    as a closed enumeration of thirteen lifecycle states; they are the names
    the script inserts into the table [order_statuses]. *)
Definition order_status_labels : list text :=
  [ "pending_payment"; "created"; "processing"; "partially_shipped";
    "shipped"; "out_for_delivery"; "delivered"; "return_requested";
    "return_shipped"; "returned"; "partially_refunded"; "refunded";
    "canceled" ].

(** A value of type [order_status] is written as one of the labels. *)
Definition order_status_in (status : option text) : bool :=
  match status with
  | None => true
  | Some s => existsb (String.eqb s) order_status_labels
  end.

(** ** JSON operators *)

(** [j -> key]: the member of an object, NULL for anything else. *)
Definition json_member (j : option jsonb) (key : text) : option jsonb :=
  match j with
  | Some (JObject members) =>
      match find (fun m => String.eqb (fst m) key) members with
      | Some m => Some (snd m)
      | None => None
      end
  | _ => None
  end.

(** ** Row updates and deletions by key *)

Definition update_where {R : Type} (p : R -> bool) (f : R -> R)
    (l : list R) : list R :=
  map (fun r => if p r then f r else r) l.

Definition delete_where {R : Type} (p : R -> bool) (l : list R) : list R :=
  filter (fun r => negb (p r)) l.

(** [v = k] as a condition: TRUE for no NULL [v]. *)
Definition opt_text_is (k : text) (v : option text) : bool :=
  is_true (sql_eq_text v (Some k)).

(** ** Row-level security

    A session runs under a role and carries the identity [auth.uid()] of its
    user (NULL for an anonymous one).  On a table with row-level security
    enabled a row is reached only through a policy that applies to the
    command and the role and whose expression is TRUE; the applicable
    policies are combined with OR, and no policy means no row. *)

Record session : Type := mkSession {
  current_role : text;
  auth_uid : option uuid
}.

Inductive command : Type := Select | Insert | Update | Delete.

Definition command_eqb (a b : command) : bool :=
  match a, b with
  | Select, Select | Insert, Insert | Update, Update | Delete, Delete => true
  | _, _ => false
  end.

Definition expr (R : Type) : Type := session -> db -> R -> result sql_bool.

(** [create policy name on table for cmd to roles using (..) with check (..)];
    [policy_to = None] is a policy without TO clause: it applies to every
    role. *)
Record policy (R : Type) : Type := mkPolicy {
  policy_name : text;
  policy_for : command;
  policy_to : option (list text);
  policy_using : option (expr R);
  policy_with_check : option (expr R)
}.

Arguments mkPolicy {R}.
Arguments policy_name {R}.
Arguments policy_for {R}.
Arguments policy_to {R}.
Arguments policy_using {R}.
Arguments policy_with_check {R}.

Record table_security (R : Type) : Type := mkSecurity {
  table_name : text;
  row_level_security : bool;
  policies : list (policy R)
}.

Arguments mkSecurity {R}.
Arguments table_name {R}.
Arguments row_level_security {R}.
Arguments policies {R}.

Definition always {R : Type} : expr R := fun _ _ _ => Ok (Some true).

(** A scalar subquery: NULL for no row, an error for more than one. *)
Definition scalar {A : Type} (rows : list A) : result (option A) :=
  match rows with
  | [] => Ok None
  | [a] => Ok (Some a)
  | _ => Err CardinalityViolation
  end.

Section RowSecurity.

Context {R : Type}.
Variable T : table_security R.

(** A policy applies to the command it is declared for and to the roles of
    its TO clause. *)
Definition applies (c : command) (s : session) (p : policy R) : bool :=
  command_eqb (policy_for p) c &&
  match policy_to p with
  | None => true
  | Some roles => existsb (String.eqb (current_role s)) roles
  end.

(** The expressions of the applicable policies, combined with OR. *)
Fixpoint any_true (es : list (expr R)) (s : session) (d : db) (r : R)
    : result bool :=
  match es with
  | [] => Ok false
  | e :: es' =>
      v <- e s d r ;;
      rest <- any_true es' s d r ;;
      Ok (is_true v || rest)
  end.

(** The USING expressions that guard the rows a command reads or touches. *)
Definition using_of (c : command) (s : session) (d : db) (r : R)
    : result bool :=
  if row_level_security T then
    any_true (non_null (map policy_using (filter (applies c s) (policies T))))
      s d r
  else Ok true.

(** The WITH CHECK expressions that guard the rows a command writes; a
    policy without WITH CHECK checks its USING expression. *)
Definition check_of (c : command) (s : session) (d : db) (r : R)
    : result bool :=
  if row_level_security T then
    any_true
      (non_null
         (map (fun p => match policy_with_check p with
                        | Some e => Some e
                        | None => policy_using p
                        end)
            (filter (applies c s) (policies T))))
      s d r
  else Ok true.

(** Whether the session may run the command on an existing row ([Select],
    [Update], [Delete]) or insert the row ([Insert]).  An update or delete
    addresses its row by key, so it has to read it as well. *)
Definition authorized (c : command) (s : session) (d : db) (r : R)
    : result bool :=
  match c with
  | Select => using_of Select s d r
  | Insert => check_of Insert s d r
  | Update | Delete =>
      readable <- using_of Select s d r ;;
      touchable <- using_of c s d r ;;
      Ok (readable && touchable)
  end.

(** Whether the session may leave the row an update produces. *)
Definition authorized_new (s : session) (d : db) (r : R) : result bool :=
  readable <- using_of Select s d r ;;
  writable <- check_of Update s d r ;;
  Ok (readable && writable).

(** [select * from table] as the session sees it. *)
Fixpoint select_rows (s : session) (d : db) (rows : list R)
    : result (list R) :=
  match rows with
  | [] => Ok []
  | r :: rows' =>
      keep <- authorized Select s d r ;;
      rest <- select_rows s d rows' ;;
      Ok (if keep then r :: rest else rest)
  end.

(** An insert the policies refuse is an error. *)
Definition guarded_insert (s : session) (d : db) (r : R)
    (run : result db) : result db :=
  ok <- authorized Insert s d r ;;
  if ok then run else Err (RowSecurityViolation (table_name T)).

(** An update of a row the session cannot touch affects no row; one that
    would leave a row the policies refuse is an error. *)
Definition guarded_update (s : session) (d : db) (target : option R)
    (set : R -> R) (run : result db) : result db :=
  match target with
  | None => Ok d
  | Some old =>
      ok <- authorized Update s d old ;;
      if ok then
        ok' <- authorized_new s d (set old) ;;
        if ok' then run else Err (RowSecurityViolation (table_name T))
      else Ok d
  end.

(** A delete of a row the session cannot touch affects no row. *)
Definition guarded_delete (s : session) (d : db) (target : option R)
    (run : result db) : result db :=
  match target with
  | None => Ok d
  | Some old =>
      ok <- authorized Delete s d old ;;
      if ok then run else Ok d
  end.

End RowSecurity.

(** ** The policies of the script *)

Definition admin : text := "admin".

(** The four policies of a public reference table. *)
Definition public_read_admin_write {R : Type} (what : text)
    : list (policy R) :=
  [ mkPolicy "Allow public read-only access." Select None (Some always) None;
    mkPolicy ("Allow admins to insert " ++ what ++ ".") Insert (Some [admin])
      None (Some always);
    mkPolicy ("Allow admins to update " ++ what ++ ".") Update (Some [admin])
      (Some always) None;
    mkPolicy ("Allow admins to delete " ++ what ++ ".") Delete (Some [admin])
      (Some always) None ].

Definition users_security : table_security Users.row :=
  mkSecurity "users" true
    [ mkPolicy "Can view own user data." Select None
        (Some (fun s _ r => Ok (sql_eq_text (auth_uid s) (Some (Users.id r)))))
        None;
      mkPolicy "Can update own user data." Update None
        (Some (fun s _ r => Ok (sql_eq_text (auth_uid s) (Some (Users.id r)))))
        None ].

Definition customers_security : table_security Customers.row :=
  mkSecurity "customers" true [].

Definition sizes_security : table_security Sizes.row :=
  mkSecurity "sizes" true (public_read_admin_write "sizes").

Definition colors_security : table_security Colors.row :=
  mkSecurity "colors" true (public_read_admin_write "colors").

Definition products_security : table_security Products.row :=
  mkSecurity "products" true (public_read_admin_write "products").

Definition product_variants_security : table_security ProductVariants.row :=
  mkSecurity "product_variants" true
    (public_read_admin_write "product variants").

Definition product_changes_security : table_security ProductChanges.row :=
  mkSecurity "product_changes" true
    [ mkPolicy "Admins can view all product changes." Select (Some [admin])
        (Some always) None ].

Definition prices_security : table_security Prices.row :=
  mkSecurity "prices" true
    [ mkPolicy "Admins can view all prices." Select (Some [admin])
        (Some always) None ].

Definition order_statuses_security : table_security OrderStatuses.row :=
  mkSecurity "order_statuses" false [].

Definition orders_security : table_security Orders.row :=
  mkSecurity "orders" true
    [ mkPolicy "Can only view own orders." Select None
        (Some (fun s _ o =>
           Ok (sql_eq_text (auth_uid s) (Some (Orders.user_id o)))))
        None ].

(** [(select user_id from orders where orders.id = order_items.order_id)],
    read by the session, hence through the policies of [orders]. *)
Definition order_owner (s : session) (d : db) (i : OrderItems.row)
    : result (option uuid) :=
  visible <- select_rows orders_security s d (orders d) ;;
  scalar
    (map Orders.user_id
       (filter
          (fun o => is_true
             (sql_eq_text (Some (Orders.id o)) (OrderItems.order_id i)))
          visible)).

Definition order_items_security : table_security OrderItems.row :=
  mkSecurity "order_items" true
    [ mkPolicy "Can only view own order items." Select None
        (Some (fun s d i =>
           owner <- order_owner s d i ;;
           Ok (sql_eq_text (auth_uid s) owner)))
        None ].

Definition order_changes_security : table_security OrderChanges.row :=
  mkSecurity "order_changes" false [].

(** ** Reads of a session *)

(** [select * from table where cond], read through the policies. *)
Definition query {R : Type} (T : table_security R) (s : session) (d : db)
    (rows : list R) (cond : R -> bool) : result (list R) :=
  visible <- select_rows T s d rows ;;
  Ok (filter cond visible).

Definition select_sizes (s : session) (d : db) : result (list Sizes.row) :=
  select_rows sizes_security s d (sizes d).

Definition select_colors (s : session) (d : db) : result (list Colors.row) :=
  select_rows colors_security s d (colors d).

Definition select_products (s : session) (d : db)
    : result (list Products.row) :=
  select_rows products_security s d (products d).

Definition select_product_variants (s : session) (d : db)
    : result (list ProductVariants.row) :=
  select_rows product_variants_security s d (product_variants d).

Definition select_product_changes (s : session) (d : db)
    : result (list ProductChanges.row) :=
  select_rows product_changes_security s d (product_changes d).

Definition select_orders (s : session) (d : db) : result (list Orders.row) :=
  select_rows orders_security s d (orders d).

Definition select_order_items (s : session) (d : db)
    : result (list OrderItems.row) :=
  select_rows order_items_security s d (order_items d).

(** ** Column defaults

    An insert either names a column or leaves it to its DEFAULT.  A column
    the statement sets to NULL stays NULL: the default only stands in for a
    column that is not named.  ([serial] keys are given by the statement; the
    sequence behind their default is not part of the model.) *)

Inductive column (A : Type) : Type :=
| Default
| Value (a : A).

Arguments Default {A}.
Arguments Value {A} a.

Definition or_default {A : Type} (dflt : A) (c : column A) : A :=
  match c with
  | Default => dflt
  | Value a => a
  end.

(** [active boolean default false] *)
Definition new_product (id : Z) (active : column (option bool)) (name : text)
    (description image : option text) : Products.row :=
  Products.mk id (or_default (Some false) active) name description image.

(** [quantity integer default 0],
    [created_at ... default timezone('utc', now()) not null] *)
Definition new_product_variant (now : timestamptz) (id : text)
    (product_id : option text) (size_id color_id : Z)
    (quantity : column (option Z)) (created_at : column timestamptz)
    (images : option (list text)) (metadata : option jsonb)
    : ProductVariants.row :=
  ProductVariants.mk id product_id size_id color_id
    (or_default (Some 0) quantity) (or_default now created_at) images
    metadata.

Definition new_product_change (now : timestamptz) (id : text)
    (product_id product_variant_id : option text) (changelog : option jsonb)
    (created_at : column timestamptz) : ProductChanges.row :=
  ProductChanges.mk id product_id product_variant_id changelog
    (or_default now created_at).

Definition new_order (now : timestamptz) (id : text) (user_id : uuid)
    (status : option text) (total_amount : option Z)
    (currency : option text) (created_at : column timestamptz)
    (metadata : option jsonb) : Orders.row :=
  Orders.mk id user_id status total_amount currency
    (or_default now created_at) metadata.

Definition new_order_change (now : timestamptz) (id : text)
    (order_id status : option text) (created_at : column timestamptz)
    (metadata : option jsonb) : OrderChanges.row :=
  OrderChanges.mk id order_id status (or_default now created_at) metadata.

(** ** Statements of the storage layer

    One insert, update and delete per table, addressed by primary key.  An
    update carries the function its SET list computes from the old row.  The
    storage layer is what a trusted back-office path runs; the row-level
    policies further down guard the statements of a session. *)

Inductive stmt : Type :=
| Register (new : AuthUsers.row)
| UpdateAuthUser (k : uuid) (set : AuthUsers.row -> AuthUsers.row)
| DeleteAuthUser (k : uuid)
| InsertUser (r : Users.row)
| UpdateUser (k : uuid) (set : Users.row -> Users.row)
| DeleteUser (k : uuid)
| InsertCustomer (r : Customers.row)
| UpdateCustomer (k : uuid) (set : Customers.row -> Customers.row)
| DeleteCustomer (k : uuid)
| InsertSize (r : Sizes.row)
| UpdateSize (k : Z) (set : Sizes.row -> Sizes.row)
| DeleteSize (k : Z)
| InsertColor (r : Colors.row)
| UpdateColor (k : Z) (set : Colors.row -> Colors.row)
| DeleteColor (k : Z)
| InsertProduct (r : Products.row)
| UpdateProduct (k : Z) (set : Products.row -> Products.row)
| DeleteProduct (k : Z)
| InsertProductVariant (r : ProductVariants.row)
| UpdateProductVariant (k : text)
    (set : ProductVariants.row -> ProductVariants.row)
| DeleteProductVariant (k : text)
| InsertProductChange (r : ProductChanges.row)
| UpdateProductChange (k : text)
    (set : ProductChanges.row -> ProductChanges.row)
| DeleteProductChange (k : text)
| InsertPrice (r : Prices.row)
| UpdatePrice (k : text) (set : Prices.row -> Prices.row)
| DeletePrice (k : text)
| InsertOrderStatus (r : OrderStatuses.row)
| UpdateOrderStatus (k : Z) (set : OrderStatuses.row -> OrderStatuses.row)
| DeleteOrderStatus (k : Z)
| InsertOrder (r : Orders.row)
| UpdateOrder (k : text) (set : Orders.row -> Orders.row)
| DeleteOrder (k : text)
| InsertOrderItem (r : OrderItems.row)
| UpdateOrderItem (k : text) (set : OrderItems.row -> OrderItems.row)
| DeleteOrderItem (k : text)
| InsertOrderChange (r : OrderChanges.row)
| UpdateOrderChange (k : text) (set : OrderChanges.row -> OrderChanges.row)
| DeleteOrderChange (k : text).

(** What the script leaves to the engine.

    [product_key]: the script declares [product_variants.product_id] and
    [product_changes.product_id] as [text] referencing [products], whose key
    is [serial]; how a product's number is written in the referencing column
    is not fixed by the script.

    [jsonb_out]: the text printed for a [jsonb] value that is neither a
    string nor null. *)
Class engine : Type := {
  product_key : Z -> text;
  jsonb_out : jsonb -> text
}.

Section Storage.

Context {engine_ops : engine}.

(** [j ->> key] *)
Definition json_text (v : jsonb) : option text :=
  match v with
  | JNull => None
  | JString s => Some s
  | _ => Some (jsonb_out v)
  end.

Definition json_member_text (j : option jsonb) (key : text) : option text :=
  match json_member j key with
  | Some v => json_text v
  | None => None
  end.

(** Every constraint of the script with the error its violation raises. *)
Definition constraints (d : db) : list (error * bool) :=
  [ (UniqueViolation "auth_users_pkey",
      distinct String.eqb (map AuthUsers.id (auth_users d)));
    (UniqueViolation "users_pkey",
      distinct String.eqb (map Users.id (users d)));
    (ForeignKeyViolation "users_id_fkey",
      references String.eqb (fun r => Some (Users.id r)) (users d)
        (map AuthUsers.id (auth_users d)));
    (UniqueViolation "customers_pkey",
      distinct String.eqb (map Customers.id (customers d)));
    (ForeignKeyViolation "customers_id_fkey",
      references String.eqb (fun r => Some (Customers.id r)) (customers d)
        (map AuthUsers.id (auth_users d)));
    (UniqueViolation "sizes_pkey",
      distinct Z.eqb (map Sizes.id (sizes d)));
    (UniqueViolation "sizes_name_key",
      distinct String.eqb (map Sizes.name (sizes d)));
    (UniqueViolation "colors_pkey",
      distinct Z.eqb (map Colors.id (colors d)));
    (UniqueViolation "colors_name_key",
      distinct String.eqb (map Colors.name (colors d)));
    (UniqueViolation "products_pkey",
      distinct Z.eqb (map Products.id (products d)));
    (UniqueViolation "product_variants_pkey",
      distinct String.eqb (map ProductVariants.id (product_variants d)));
    (ForeignKeyViolation "product_variants_product_id_fkey",
      references String.eqb ProductVariants.product_id (product_variants d)
        (map (fun p => product_key (Products.id p)) (products d)));
    (ForeignKeyViolation "product_variants_size_id_fkey",
      references Z.eqb (fun v => Some (ProductVariants.size_id v))
        (product_variants d) (map Sizes.id (sizes d)));
    (ForeignKeyViolation "product_variants_color_id_fkey",
      references Z.eqb (fun v => Some (ProductVariants.color_id v))
        (product_variants d) (map Colors.id (colors d)));
    (CheckViolation "product_variants_quantity_check",
      forallb (fun v => quantity_check (ProductVariants.quantity v))
        (product_variants d));
    (UniqueViolation "product_variants_product_id_size_id_color_id_key",
      distinct triple_eqb (non_null (map variant_key (product_variants d))));
    (CheckViolation "check_quantity_non_negative",
      forallb (fun v => quantity_check (ProductVariants.quantity v))
        (product_variants d));
    (UniqueViolation "product_changes_pkey",
      distinct String.eqb (map ProductChanges.id (product_changes d)));
    (ForeignKeyViolation "product_changes_product_id_fkey",
      references String.eqb ProductChanges.product_id (product_changes d)
        (map (fun p => product_key (Products.id p)) (products d)));
    (ForeignKeyViolation "product_changes_product_variant_id_fkey",
      references String.eqb ProductChanges.product_variant_id
        (product_changes d) (map ProductVariants.id (product_variants d)));
    (UniqueViolation "prices_pkey",
      distinct String.eqb (map Prices.id (prices d)));
    (ForeignKeyViolation "prices_product_variant_id_fkey",
      references String.eqb Prices.product_variant_id (prices d)
        (map ProductVariants.id (product_variants d)));
    (CheckViolation "prices_currency_check",
      forallb (fun p => currency_check (Prices.currency p)) (prices d));
    (UniqueViolation "order_statuses_pkey",
      distinct Z.eqb (map OrderStatuses.id (order_statuses d)));
    (UniqueViolation "order_statuses_name_key",
      distinct String.eqb (map OrderStatuses.name (order_statuses d)));
    (UniqueViolation "orders_pkey",
      distinct String.eqb (map Orders.id (orders d)));
    (ForeignKeyViolation "orders_user_id_fkey",
      references String.eqb (fun o => Some (Orders.user_id o)) (orders d)
        (map AuthUsers.id (auth_users d)));
    (InvalidEnumValue "order_status",
      forallb (fun o => order_status_in (Orders.status o)) (orders d));
    (CheckViolation "orders_currency_check",
      forallb (fun o => currency_check (Orders.currency o)) (orders d));
    (UniqueViolation "order_items_pkey",
      distinct String.eqb (map OrderItems.id (order_items d)));
    (ForeignKeyViolation "order_items_order_id_fkey",
      references String.eqb OrderItems.order_id (order_items d)
        (map Orders.id (orders d)));
    (ForeignKeyViolation "order_items_product_variant_id_fkey",
      references String.eqb OrderItems.product_variant_id (order_items d)
        (map ProductVariants.id (product_variants d)));
    (CheckViolation "order_items_currency_check",
      forallb (fun i => currency_check (OrderItems.currency i))
        (order_items d));
    (ForeignKeyViolation "fk_order_items_order_id",
      references String.eqb OrderItems.order_id (order_items d)
        (map Orders.id (orders d)));
    (UniqueViolation "order_changes_pkey",
      distinct String.eqb (map OrderChanges.id (order_changes d)));
    (ForeignKeyViolation "order_changes_order_id_fkey",
      references String.eqb OrderChanges.order_id (order_changes d)
        (map Orders.id (orders d))) ].

Definition consistent (d : db) : bool :=
  forallb snd (constraints d).

(** A statement takes effect when no constraint is violated by the state it
    leaves (a foreign key without a referential action is checked once the
    cascade of the statement is done, unless its column carries a cascading
    key created after it, as [order_items.order_id] does: see [DeleteOrder]
    below); otherwise its first violation is
    raised and nothing is written. *)
Definition commit (d : db) : result db :=
  match filter (fun c => negb (snd c)) (constraints d) with
  | [] => Ok d
  | c :: _ => Err (fst c)
  end.

(** [handle_new_user], the trigger function of [on_auth_user_created]. *)
Definition handle_new_user (new : AuthUsers.row) (d : db) : db :=
  set_users
    (users d ++
     [ Users.mk (AuthUsers.id new)
         (json_member_text (AuthUsers.raw_user_meta_data new) "full_name")
         (json_member_text (AuthUsers.raw_user_meta_data new) "avatar_url")
         None None ]) d.

Definition exec (s : stmt) (d : db) : result db :=
  match s with
  | Register new =>
      commit (handle_new_user new (set_auth_users (auth_users d ++ [new]) d))
  | UpdateAuthUser k set =>
      commit (set_auth_users
        (update_where (fun r => String.eqb (AuthUsers.id r) k) set
           (auth_users d)) d)
  | DeleteAuthUser k =>
      commit (set_auth_users
        (delete_where (fun r => String.eqb (AuthUsers.id r) k)
           (auth_users d)) d)
  | InsertUser r => commit (set_users (users d ++ [r]) d)
  | UpdateUser k set =>
      commit (set_users
        (update_where (fun r => String.eqb (Users.id r) k) set (users d)) d)
  | DeleteUser k =>
      commit (set_users
        (delete_where (fun r => String.eqb (Users.id r) k) (users d)) d)
  | InsertCustomer r => commit (set_customers (customers d ++ [r]) d)
  | UpdateCustomer k set =>
      commit (set_customers
        (update_where (fun r => String.eqb (Customers.id r) k) set
           (customers d)) d)
  | DeleteCustomer k =>
      commit (set_customers
        (delete_where (fun r => String.eqb (Customers.id r) k)
           (customers d)) d)
  | InsertSize r => commit (set_sizes (sizes d ++ [r]) d)
  | UpdateSize k set =>
      commit (set_sizes
        (update_where (fun r => Z.eqb (Sizes.id r) k) set (sizes d)) d)
  | DeleteSize k =>
      commit (set_sizes
        (delete_where (fun r => Z.eqb (Sizes.id r) k) (sizes d)) d)
  | InsertColor r => commit (set_colors (colors d ++ [r]) d)
  | UpdateColor k set =>
      commit (set_colors
        (update_where (fun r => Z.eqb (Colors.id r) k) set (colors d)) d)
  | DeleteColor k =>
      commit (set_colors
        (delete_where (fun r => Z.eqb (Colors.id r) k) (colors d)) d)
  | InsertProduct r => commit (set_products (products d ++ [r]) d)
  | UpdateProduct k set =>
      commit (set_products
        (update_where (fun r => Z.eqb (Products.id r) k) set (products d)) d)
  | DeleteProduct k =>
      (* product_variants.product_id: on delete cascade *)
      commit (set_product_variants
        (delete_where
           (fun v => opt_text_is (product_key k) (ProductVariants.product_id v))
           (product_variants d))
        (set_products
           (delete_where (fun r => Z.eqb (Products.id r) k) (products d)) d))
  | InsertProductVariant r =>
      commit (set_product_variants (product_variants d ++ [r]) d)
  | UpdateProductVariant k set =>
      commit (set_product_variants
        (update_where (fun r => String.eqb (ProductVariants.id r) k) set
           (product_variants d)) d)
  | DeleteProductVariant k =>
      commit (set_product_variants
        (delete_where (fun r => String.eqb (ProductVariants.id r) k)
           (product_variants d)) d)
  | InsertProductChange r =>
      commit (set_product_changes (product_changes d ++ [r]) d)
  | UpdateProductChange k set =>
      commit (set_product_changes
        (update_where (fun r => String.eqb (ProductChanges.id r) k) set
           (product_changes d)) d)
  | DeleteProductChange k =>
      commit (set_product_changes
        (delete_where (fun r => String.eqb (ProductChanges.id r) k)
           (product_changes d)) d)
  | InsertPrice r => commit (set_prices (prices d ++ [r]) d)
  | UpdatePrice k set =>
      commit (set_prices
        (update_where (fun r => String.eqb (Prices.id r) k) set (prices d)) d)
  | DeletePrice k =>
      commit (set_prices
        (delete_where (fun r => String.eqb (Prices.id r) k) (prices d)) d)
  | InsertOrderStatus r =>
      commit (set_order_statuses (order_statuses d ++ [r]) d)
  | UpdateOrderStatus k set =>
      commit (set_order_statuses
        (update_where (fun r => Z.eqb (OrderStatuses.id r) k) set
           (order_statuses d)) d)
  | DeleteOrderStatus k =>
      commit (set_order_statuses
        (delete_where (fun r => Z.eqb (OrderStatuses.id r) k)
           (order_statuses d)) d)
  | InsertOrder r => commit (set_orders (orders d ++ [r]) d)
  | UpdateOrder k set =>
      commit (set_orders
        (update_where (fun r => String.eqb (Orders.id r) k) set (orders d)) d)
  | DeleteOrder k =>
      if existsb (fun r => String.eqb (Orders.id r) k) (orders d) then
        (* order_items_order_id_fkey, the inline key of order_items.order_id,
           has no action and was created before fk_order_items_order_id: it
           is checked first, while the items of the order are still there *)
        if existsb (fun i => opt_text_is k (OrderItems.order_id i))
             (order_items d)
        then Err (ForeignKeyViolation "order_items_order_id_fkey")
        else
          (* fk_order_items_order_id: on delete cascade *)
          commit (set_order_items
            (delete_where (fun i => opt_text_is k (OrderItems.order_id i))
               (order_items d))
            (set_orders
               (delete_where (fun r => String.eqb (Orders.id r) k)
                  (orders d)) d))
      else commit d
  | InsertOrderItem r => commit (set_order_items (order_items d ++ [r]) d)
  | UpdateOrderItem k set =>
      commit (set_order_items
        (update_where (fun r => String.eqb (OrderItems.id r) k) set
           (order_items d)) d)
  | DeleteOrderItem k =>
      commit (set_order_items
        (delete_where (fun r => String.eqb (OrderItems.id r) k)
           (order_items d)) d)
  | InsertOrderChange r =>
      commit (set_order_changes (order_changes d ++ [r]) d)
  | UpdateOrderChange k set =>
      commit (set_order_changes
        (update_where (fun r => String.eqb (OrderChanges.id r) k) set
           (order_changes d)) d)
  | DeleteOrderChange k =>
      commit (set_order_changes
        (delete_where (fun r => String.eqb (OrderChanges.id r) k)
           (order_changes d)) d)
  end.

(** The state a statement leaves: the old one when it is rejected. *)
Definition state_after (s : stmt) (d : db) : db :=
  match exec s d with
  | Ok d' => d'
  | Err _ => d
  end.

(** The database right after the script: every table empty but
    [order_statuses], which holds the thirteen inserted names. *)
Definition schema_init : db :=
  mkDb [] [] [] [] [] [] [] [] []
    (map (fun p => OrderStatuses.mk (fst p) (snd p))
       (combine [1; 2; 3; 4; 5; 6; 7; 8; 9; 10; 11; 12; 13]
          [ "pending_payment"; "created"; "processing"; "partially_shipped";
            "shipped"; "out_for_delivery"; "delivered"; "return_requested";
            "return_shipped"; "returned"; "partially_refunded"; "refunded";
            "canceled" ]))
    [] [] [].

Inductive reachable : db -> Prop :=
| reachable_init : reachable schema_init
| reachable_step (d d' : db) (s : stmt) :
    reachable d -> exec s d = Ok d' -> reachable d'.

(** ** Statements of a session

    The statement of the storage layer behind the policies of its table.
    [auth.users] is the identity provider's: the script puts no policy on
    it. *)
Definition session_exec (s : session) (st : stmt) (d : db) : result db :=
  match st with
  | Register _ | UpdateAuthUser _ _ | DeleteAuthUser _ => exec st d
  | InsertUser r => guarded_insert users_security s d r (exec st d)
  | UpdateUser k set =>
      guarded_update users_security s d
        (find (fun r => String.eqb (Users.id r) k) (users d)) set (exec st d)
  | DeleteUser k =>
      guarded_delete users_security s d
        (find (fun r => String.eqb (Users.id r) k) (users d)) (exec st d)
  | InsertCustomer r => guarded_insert customers_security s d r (exec st d)
  | UpdateCustomer k set =>
      guarded_update customers_security s d
        (find (fun r => String.eqb (Customers.id r) k) (customers d)) set
        (exec st d)
  | DeleteCustomer k =>
      guarded_delete customers_security s d
        (find (fun r => String.eqb (Customers.id r) k) (customers d))
        (exec st d)
  | InsertSize r => guarded_insert sizes_security s d r (exec st d)
  | UpdateSize k set =>
      guarded_update sizes_security s d
        (find (fun r => Z.eqb (Sizes.id r) k) (sizes d)) set (exec st d)
  | DeleteSize k =>
      guarded_delete sizes_security s d
        (find (fun r => Z.eqb (Sizes.id r) k) (sizes d)) (exec st d)
  | InsertColor r => guarded_insert colors_security s d r (exec st d)
  | UpdateColor k set =>
      guarded_update colors_security s d
        (find (fun r => Z.eqb (Colors.id r) k) (colors d)) set (exec st d)
  | DeleteColor k =>
      guarded_delete colors_security s d
        (find (fun r => Z.eqb (Colors.id r) k) (colors d)) (exec st d)
  | InsertProduct r => guarded_insert products_security s d r (exec st d)
  | UpdateProduct k set =>
      guarded_update products_security s d
        (find (fun r => Z.eqb (Products.id r) k) (products d)) set (exec st d)
  | DeleteProduct k =>
      guarded_delete products_security s d
        (find (fun r => Z.eqb (Products.id r) k) (products d)) (exec st d)
  | InsertProductVariant r =>
      guarded_insert product_variants_security s d r (exec st d)
  | UpdateProductVariant k set =>
      guarded_update product_variants_security s d
        (find (fun r => String.eqb (ProductVariants.id r) k)
           (product_variants d)) set (exec st d)
  | DeleteProductVariant k =>
      guarded_delete product_variants_security s d
        (find (fun r => String.eqb (ProductVariants.id r) k)
           (product_variants d)) (exec st d)
  | InsertProductChange r =>
      guarded_insert product_changes_security s d r (exec st d)
  | UpdateProductChange k set =>
      guarded_update product_changes_security s d
        (find (fun r => String.eqb (ProductChanges.id r) k)
           (product_changes d)) set (exec st d)
  | DeleteProductChange k =>
      guarded_delete product_changes_security s d
        (find (fun r => String.eqb (ProductChanges.id r) k)
           (product_changes d)) (exec st d)
  | InsertPrice r => guarded_insert prices_security s d r (exec st d)
  | UpdatePrice k set =>
      guarded_update prices_security s d
        (find (fun r => String.eqb (Prices.id r) k) (prices d)) set
        (exec st d)
  | DeletePrice k =>
      guarded_delete prices_security s d
        (find (fun r => String.eqb (Prices.id r) k) (prices d)) (exec st d)
  | InsertOrderStatus r =>
      guarded_insert order_statuses_security s d r (exec st d)
  | UpdateOrderStatus k set =>
      guarded_update order_statuses_security s d
        (find (fun r => Z.eqb (OrderStatuses.id r) k) (order_statuses d)) set
        (exec st d)
  | DeleteOrderStatus k =>
      guarded_delete order_statuses_security s d
        (find (fun r => Z.eqb (OrderStatuses.id r) k) (order_statuses d))
        (exec st d)
  | InsertOrder r => guarded_insert orders_security s d r (exec st d)
  | UpdateOrder k set =>
      guarded_update orders_security s d
        (find (fun r => String.eqb (Orders.id r) k) (orders d)) set
        (exec st d)
  | DeleteOrder k =>
      guarded_delete orders_security s d
        (find (fun r => String.eqb (Orders.id r) k) (orders d)) (exec st d)
  | InsertOrderItem r => guarded_insert order_items_security s d r (exec st d)
  | UpdateOrderItem k set =>
      guarded_update order_items_security s d
        (find (fun r => String.eqb (OrderItems.id r) k) (order_items d)) set
        (exec st d)
  | DeleteOrderItem k =>
      guarded_delete order_items_security s d
        (find (fun r => String.eqb (OrderItems.id r) k) (order_items d))
        (exec st d)
  | InsertOrderChange r =>
      guarded_insert order_changes_security s d r (exec st d)
  | UpdateOrderChange k set =>
      guarded_update order_changes_security s d
        (find (fun r => String.eqb (OrderChanges.id r) k) (order_changes d))
        set (exec st d)
  | DeleteOrderChange k =>
      guarded_delete order_changes_security s d
        (find (fun r => String.eqb (OrderChanges.id r) k) (order_changes d))
        (exec st d)
  end.

End Storage.

(** ** Scripts and scenarios *)

Section Scripts.

Context {engine_ops : engine}.

(** Statements run one after the other; the first error stops the script. *)
Fixpoint run (l : list stmt) (d : db) : result db :=
  match l with
  | [] => Ok d
  | s :: l' => d' <- exec s d ;; run l' d'
  end.

End Scripts.

(** The engine the scenarios run on: a product is referenced by its number
    in decimal, and compound JSON values print as the empty text. *)
Definition decimal_key (z : Z) : text :=
  NilEmpty.string_of_int (Z.to_int z).

Definition scenario_engine : engine :=
  {| product_key := decimal_key; jsonb_out := fun _ => "" |}.

(** Scenario: size Small, color Red, product Tee and its variant with ten
    pieces in stock. *)
Definition tee_catalog : list stmt :=
  [ InsertSize (Sizes.mk 1 "Small" "Shirt" "US");
    InsertColor (Colors.mk 1 "Red");
    InsertProduct (new_product 1 Default "Tee" None None);
    InsertProductVariant
      (new_product_variant 0 "prod_1" (Some "1") 1 1 (Value (Some 10))
         Default None None) ].

(** Scenario: a variant that names no product and whose quantity is set to
    NULL. *)
Definition loose_variant (id : text) : ProductVariants.row :=
  new_product_variant 0 id None 1 1 (Value None) Default None None.

Definition loose_catalog : list stmt :=
  [ InsertSize (Sizes.mk 1 "Small" "Shirt" "US");
    InsertColor (Colors.mk 1 "Red");
    InsertProductVariant (loose_variant "prod_1");
    InsertProductVariant (loose_variant "prod_2") ].

Definition scenario_db (l : list stmt) : db :=
  match run (engine_ops := scenario_engine) l schema_init with
  | Ok d => d
  | Err _ => schema_init
  end.

(** [set quantity = q] *)
Definition set_quantity (q : option Z) (v : ProductVariants.row)
    : ProductVariants.row :=
  ProductVariants.mk (ProductVariants.id v) (ProductVariants.product_id v)
    (ProductVariants.size_id v) (ProductVariants.color_id v) q
    (ProductVariants.created_at v) (ProductVariants.images v)
    (ProductVariants.metadata v).

(** The columns of [unique (product_id, size_id, color_id)] as a row stores
    them. *)
Definition variant_triple (v : ProductVariants.row) : option text * Z * Z :=
  (ProductVariants.product_id v, ProductVariants.size_id v,
   ProductVariants.color_id v).

(** Scenario: identity u1 registers with the metadata full_name = Ada. *)
Definition ada : AuthUsers.row :=
  AuthUsers.mk "u1" (Some (JObject [("full_name", JString "Ada")])).

(** Scenario: order_1 of u1 with two items, order_2 of u2 with one item, and
    an item that belongs to no order. *)
Definition order_book : list stmt :=
  [ Register ada;
    Register (AuthUsers.mk "u2" None);
    InsertOrder
      (new_order 0 "order_1" "u1" (Some "created") (Some 2500) (Some "usd")
         Default None);
    InsertOrder
      (new_order 0 "order_2" "u2" (Some "shipped") (Some 900) (Some "usd")
         Default None);
    InsertOrderItem
      (OrderItems.mk "item_1" (Some "order_1") None (Some 1) (Some 1000)
         (Some "usd") None);
    InsertOrderItem
      (OrderItems.mk "item_2" (Some "order_1") None (Some 1) (Some 1500)
         (Some "usd") None);
    InsertOrderItem
      (OrderItems.mk "item_3" (Some "order_2") None (Some 3) (Some 300)
         (Some "usd") None);
    InsertOrderItem
      (OrderItems.mk "item_4" None None (Some 1) (Some 100) (Some "usd")
         None) ].

(** The recorded owner of an order item: the user of its parent order. *)
Definition parent_order (d : db) (i : OrderItems.row) : option Orders.row :=
  match OrderItems.order_id i with
  | None => None
  | Some k => find (fun o => String.eqb (Orders.id o) k) (orders d)
  end.

Definition order_item_owner (d : db) (i : OrderItems.row) : option uuid :=
  option_map Orders.user_id (parent_order d i).

Definition owned_by (u : uuid) (owner : option uuid) : bool :=
  match owner with
  | Some v => String.eqb v u
  | None => false
  end.

(** The currencies a statement writes: the one of the row an insert adds,
    those of the rows an update leaves, on [prices], [orders] and
    [order_items]. *)
Definition written_currencies (st : stmt) (d : db) : list (option text) :=
  match st with
  | InsertPrice r => [Prices.currency r]
  | UpdatePrice k set =>
      map (fun r => Prices.currency (set r))
        (filter (fun r => String.eqb (Prices.id r) k) (prices d))
  | InsertOrder r => [Orders.currency r]
  | UpdateOrder k set =>
      map (fun r => Orders.currency (set r))
        (filter (fun r => String.eqb (Orders.id r) k) (orders d))
  | InsertOrderItem r => [OrderItems.currency r]
  | UpdateOrderItem k set =>
      map (fun r => OrderItems.currency (set r))
        (filter (fun r => String.eqb (OrderItems.id r) k) (order_items d))
  | _ => []
  end.

(** Scenario: a price of 1000 minor units in the given currency. *)
Definition price_in (currency : option text) : Prices.row :=
  Prices.mk "price_1" None None None (Some 1000) currency None.

(** Scenario: an order item of no order, in the given currency. *)
Definition item_in (currency : option text) : OrderItems.row :=
  OrderItems.mk "item_0" None None (Some 1) (Some 1000) currency None.

(** Scenario: u1 registers and an order without status is recorded. *)
Definition bare_order : Orders.row :=
  new_order 0 "order_0" "u1" None None None Default None.

Definition bare_book : list stmt :=
  [ Register ada; InsertOrder bare_order ].

(** A table that every role reads and only [admin] writes: a session reads
    all rows, and its insert, update or delete is the statement of the
    storage layer for [admin]; for any other role an insert is refused and an
    update or delete affects no row. *)
Definition read_by_all_written_by_admin {R : Type} (T : table_security R)
    : Prop :=
  forall (s : session) (d : db),
    (forall r, authorized T Select s d r = Ok true) /\
    (forall rows, select_rows T s d rows = Ok rows) /\
    (forall c r, c <> Select ->
       (authorized T c s d r = Ok true <-> current_role s = admin)) /\
    (forall r run,
       guarded_insert T s d r run =
       if String.eqb (current_role s) admin then run
       else Err (RowSecurityViolation (table_name T))) /\
    (forall old set run,
       guarded_update T s d (Some old) set run =
       if String.eqb (current_role s) admin then run else Ok d) /\
    (forall old run,
       guarded_delete T s d (Some old) run =
       if String.eqb (current_role s) admin then run else Ok d).

(** ** Further reads of a session *)

Definition select_users (s : session) (d : db) : result (list Users.row) :=
  select_rows users_security s d (users d).

Definition select_customers (s : session) (d : db)
    : result (list Customers.row) :=
  select_rows customers_security s d (customers d).

Definition select_prices (s : session) (d : db) : result (list Prices.row) :=
  select_rows prices_security s d (prices d).

Definition select_order_statuses (s : session) (d : db)
    : result (list OrderStatuses.row) :=
  select_rows order_statuses_security s d (order_statuses d).

Definition select_order_changes (s : session) (d : db)
    : result (list OrderChanges.row) :=
  select_rows order_changes_security s d (order_changes d).

(** [auth.uid() = k] as a policy sees it: TRUE for the session of [k]
    only. *)
Definition is_user (s : session) (k : uuid) : bool :=
  is_true (sql_eq_text (auth_uid s) (Some k)).

(** Scenario: Ada corrects her name; a session that moves a profile to the
    identifier u2. *)
Definition set_full_name (n : option text) (u : Users.row) : Users.row :=
  Users.mk (Users.id u) n (Users.avatar_url u) (Users.billing_address u)
    (Users.payment_method u).

Definition set_user_id (k : uuid) (u : Users.row) : Users.row :=
  Users.mk k (Users.full_name u) (Users.avatar_url u)
    (Users.billing_address u) (Users.payment_method u).

(** Scenario: the Tee variant gets a price. *)
Definition priced_catalog : list stmt :=
  (tee_catalog ++
   [ InsertPrice
       (Prices.mk "price_1" (Some "prod_1") (Some true) None (Some 1500)
          (Some "usd") None) ])%list.

(** The variant of the Tee scenario and the first item of the order book. *)
Definition tee_variant : ProductVariants.row :=
  new_product_variant 0 "prod_1" (Some "1") 1 1 (Value (Some 10)) Default
    None None.

Definition item_1 : OrderItems.row :=
  OrderItems.mk "item_1" (Some "order_1") None (Some 1) (Some 1000)
    (Some "usd") None.

(** Scenario: the creation of order_1 is logged. *)
Definition order_1_created : OrderChanges.row :=
  new_order_change 0 "order_change_1" (Some "order_1") (Some "created")
    Default None.

Definition logged_book : list stmt :=
  (order_book ++ [ InsertOrderChange order_1_created ])%list.

(** * Properties *)

(** ** Lists, keys and references *)

Section Keys.

Context {K : Type}.
Variable eqb : K -> K -> bool.
Hypothesis eqb_eq : forall a b, eqb a b = true <-> a = b.

Lemma existsb_eqb_In (k : K) (l : list K) :
  existsb (eqb k) l = true <-> In k l.
Proof.
  rewrite existsb_exists. split.
  - intros [x [Hin Hx]]. apply eqb_eq in Hx. now subst.
  - intros Hin. exists k. split; [assumption | now apply eqb_eq].
Qed.

Lemma existsb_eqb_notin (k : K) (l : list K) :
  existsb (eqb k) l = false <-> ~ In k l.
Proof.
  rewrite <- existsb_eqb_In. destruct (existsb (eqb k) l); split; intros H.
  - discriminate.
  - now elim H.
  - discriminate.
  - reflexivity.
Qed.

Lemma distinct_NoDup (l : list K) : distinct eqb l = true <-> NoDup l.
Proof.
  induction l as [| k l IH]; simpl.
  - split; [constructor | reflexivity].
  - rewrite andb_true_iff, negb_true_iff, existsb_eqb_notin, IH. split.
    + intros [Hk Hl]. now constructor.
    + intros H. inversion H; subst. now split.
Qed.

Lemma references_spec {C : Type} (col : C -> option K) (children : list C)
    (parents : list K) :
  references eqb col children parents = true <->
  forall c k, In c children -> col c = Some k -> In k parents.
Proof.
  unfold references. rewrite forallb_forall. split.
  - intros H c k Hc Hk. specialize (H c Hc). rewrite Hk in H.
    now apply existsb_eqb_In.
  - intros H c Hc. destruct (col c) as [k |] eqn:Hk; [| reflexivity].
    apply existsb_eqb_In. now apply (H c).
Qed.

End Keys.

Lemma triple_eqb_eq (a b : text * Z * Z) : triple_eqb a b = true <-> a = b.
Proof.
  destruct a as [[p s] c], b as [[p' s'] c']. unfold triple_eqb.
  rewrite !andb_true_iff, String.eqb_eq, !Z.eqb_eq. split.
  - intros [[-> ->] ->]. reflexivity.
  - intros H. inversion H. auto.
Qed.

Lemma NoDup_snoc {K : Type} (l : list K) (k : K) :
  NoDup l -> ~ In k l -> NoDup (l ++ [k]).
Proof.
  induction l as [| a l IH]; simpl; intros Hl Hk.
  - constructor; [intros [] | constructor].
  - inversion Hl; subst. constructor.
    + rewrite in_app_iff. simpl. intuition congruence.
    + apply IH; intuition.
Qed.

Lemma NoDup_map_filter {A K : Type} (key : A -> K) (p : A -> bool)
    (l : list A) :
  NoDup (map key l) -> NoDup (map key (filter p l)).
Proof.
  induction l as [| a l IH]; simpl; intros H; [constructor |].
  inversion H; subst. destruct (p a); simpl; [| now apply IH].
  constructor; [| now apply IH].
  intros Hin. apply H2. rewrite in_map_iff in *.
  destruct Hin as [x [Hx Hin]]. apply filter_In in Hin. exists x. tauto.
Qed.

Lemma NoDup_map_key {A K : Type} (key : A -> K) (l : list A) (a b : A) :
  NoDup (map key l) -> In a l -> In b l -> key a = key b -> a = b.
Proof.
  induction l as [| x l IH]; simpl; intros H Ha Hb Hk; [contradiction |].
  inversion H; subst. destruct Ha as [-> | Ha], Hb as [-> | Hb].
  - reflexivity.
  - elim H2. rewrite Hk. now apply in_map.
  - elim H2. rewrite <- Hk. now apply in_map.
  - now apply IH.
Qed.

Lemma non_null_In {K : Type} (l : list (option K)) (k : K) :
  In k (non_null l) <-> In (Some k) l.
Proof.
  induction l as [| [x |] l IH]; simpl; [tauto | |].
  - rewrite IH. split; intros [H | H]; auto; left; congruence.
  - rewrite IH. split; [auto | intros [H | H]; [discriminate | assumption]].
Qed.

Lemma opt_text_is_eq (k : text) (v : option text) :
  opt_text_is k v = true <-> v = Some k.
Proof.
  unfold opt_text_is. destruct v as [x |]; simpl.
  - destruct (String.eqb_spec x k); split; congruence.
  - split; discriminate.
Qed.

Lemma quantity_check_spec (q : option Z) :
  quantity_check q = true <-> forall n, q = Some n -> 0 <= n.
Proof.
  unfold quantity_check. destruct q as [n |]; simpl.
  - destruct (Z.leb_spec 0 n); simpl; split; intros H'.
    + intros m Hm. inversion Hm; subst; assumption.
    + reflexivity.
    + discriminate.
    + specialize (H' n eq_refl). lia.
  - split; [discriminate | reflexivity].
Qed.

Lemma currency_check_spec (c : option text) :
  currency_check c = true <->
  forall s, c = Some s -> String.length s = 3%nat.
Proof.
  unfold currency_check. destruct c as [s |]; simpl.
  - destruct (Z.eqb_spec (Z.of_nat (String.length s)) 3); simpl; split;
      intros H'.
    + intros s' Hs. inversion Hs; subst. lia.
    + reflexivity.
    + discriminate.
    + specialize (H' s eq_refl). lia.
  - split; [discriminate | reflexivity].
Qed.

(** ** Consistency of the reachable states *)

Section Consistency.

Context {engine_ops : engine}.

Lemma no_violation_iff (l : list (error * bool)) :
  filter (fun c => negb (snd c)) l = [] <-> forallb snd l = true.
Proof.
  induction l as [| [e b] l IH]; simpl; [tauto |].
  destruct b; simpl; [exact IH |]. split; discriminate.
Qed.

Lemma commit_Ok (d d' : db) :
  commit d = Ok d' <-> d' = d /\ consistent d = true.
Proof.
  unfold commit, consistent.
  rewrite <- no_violation_iff.
  destruct (filter _ (constraints d)); split.
  - intros H. inversion H. auto.
  - intros [-> _]. reflexivity.
  - discriminate.
  - intros [_ H]. discriminate.
Qed.

Lemma commit_Err (d : db) :
  consistent d = false -> exists e, commit d = Err e.
Proof.
  intros H. destruct (commit d) as [d' | e] eqn:E; [| now exists e].
  apply commit_Ok in E. destruct E as [_ E]. congruence.
Qed.

Lemma exec_consistent (s : stmt) (d d' : db) :
  exec s d = Ok d' -> consistent d' = true.
Proof.
  destruct s; simpl; intros H;
    repeat match type of H with
           | (if ?b then _ else _) = _ => destruct b
           end;
    try discriminate H; apply commit_Ok in H; destruct H as [-> H];
    exact H.
Qed.

Lemma schema_init_consistent : consistent schema_init = true.
Proof. reflexivity. Qed.

Lemma reachable_consistent (d : db) : reachable d -> consistent d = true.
Proof.
  intros H. destruct H as [| d d' s _ H].
  - exact schema_init_consistent.
  - exact (exec_consistent s d d' H).
Qed.

Lemma consistent_constraint (d : db) (e : error) (b : bool) :
  consistent d = true -> In (e, b) (constraints d) -> b = true.
Proof.
  unfold consistent. rewrite forallb_forall. intros H Hin.
  exact (H (e, b) Hin).
Qed.

Lemma run_reachable (l : list stmt) (d d' : db) :
  reachable d -> run l d = Ok d' -> reachable d'.
Proof.
  revert d. induction l as [| s l IH]; simpl; intros d Hd H.
  - inversion H; subst. exact Hd.
  - destruct (exec s d) as [d1 |] eqn:H1; simpl in H; [| discriminate].
    apply (IH d1); [| exact H]. exact (reachable_step d d1 s Hd H1).
Qed.

End Consistency.

(** [constraint_of H name]: the constraint called [name], from the
    consistency [H] of a state. *)
Ltac constraint_of H name :=
  let C := fresh "C" in
  eassert (C : _ = true) by
    (eapply (consistent_constraint _ name _ H); unfold constraints;
     repeat (first [left; reflexivity | right]));
  cbn beta in C.

Lemma In_update_where {R : Type} (p : R -> bool) (f : R -> R) (l : list R)
    (r : R) :
  In r l -> p r = true -> In (f r) (update_where p f l).
Proof.
  intros Hin Hp. unfold update_where. apply in_map_iff. exists r.
  rewrite Hp. auto.
Qed.

Lemma non_null_app {K : Type} (l l' : list (option K)) :
  non_null (l ++ l') = (non_null l ++ non_null l')%list.
Proof.
  induction l as [| [k |] l IH]; simpl; [reflexivity | | exact IH].
  now rewrite IH.
Qed.

Lemma NoDup_non_null_key {A K : Type} (key : A -> option K) (l : list A)
    (a b : A) (t : K) :
  NoDup (non_null (map key l)) -> In a l -> In b l ->
  key a = Some t -> key b = Some t -> a = b.
Proof.
  assert (Hmem : forall x l', In x l' -> key x = Some t ->
                              In t (non_null (map key l'))).
  { intros x l' Hx Hk. apply non_null_In. rewrite <- Hk. now apply in_map. }
  induction l as [| x l IH]; simpl; intros H Ha Hb Hka Hkb; [contradiction |].
  destruct Ha as [-> | Ha], Hb as [-> | Hb].
  - reflexivity.
  - rewrite Hka in H. inversion H; subst. elim H2. now apply (Hmem b).
  - rewrite Hkb in H. inversion H; subst. elim H2. now apply (Hmem a).
  - apply IH; try assumption.
    destruct (key x); [now inversion H | exact H].
Qed.

Lemma references_parents_incl {C K : Type} (eqb : K -> K -> bool)
    (col : C -> option K) (children : list C) (parents parents' : list K) :
  (forall a b, eqb a b = true <-> a = b) ->
  incl parents parents' ->
  references eqb col children parents = true ->
  references eqb col children parents' = true.
Proof.
  intros Heq Hincl. rewrite !(references_spec eqb Heq).
  intros H c k Hc Hk. apply Hincl. now apply (H c).
Qed.

Lemma references_app {C K : Type} (eqb : K -> K -> bool)
    (col : C -> option K) (children children' : list C) (parents : list K) :
  references eqb col children parents = true ->
  references eqb col children' parents = true ->
  references eqb col (children ++ children') parents = true.
Proof.
  unfold references. rewrite forallb_app. intros -> ->. reflexivity.
Qed.

Lemma forallb_filter {A : Type} (f p : A -> bool) (l : list A) :
  forallb f l = true -> forallb f (filter p l) = true.
Proof.
  rewrite !forallb_forall. intros H x Hx. apply filter_In in Hx.
  apply H. tauto.
Qed.

Lemma references_filter {C K : Type} (eqb : K -> K -> bool)
    (col : C -> option K) (p : C -> bool) (children : list C)
    (parents : list K) :
  references eqb col children parents = true ->
  references eqb col (filter p children) parents = true.
Proof. apply forallb_filter. Qed.

(** [consistent_by Hd]: the consistency of a state that differs from a
    consistent state [d] in a few tables; the constraints over the other
    tables are those of [d], the rest is left to prove. *)
Ltac consistent_by Hd :=
  let c := fresh "c" in
  let Hin := fresh "Hin" in
  unfold consistent; apply forallb_forall; intros c Hin;
  unfold constraints in Hin; simpl In in Hin;
  repeat (destruct Hin as [<- | Hin]); [.. | contradiction];
  match goal with
  | |- snd (?e, _) = true =>
      let C := fresh "C" in
      eassert (C : _ = true) by
        (eapply (consistent_constraint _ e _ Hd); unfold constraints;
         repeat (first [left; reflexivity | right]));
      cbn [snd]; try exact C
  end.

Lemma filter_none {A : Type} (f : A -> bool) (l : list A) :
  (forall x, In x l -> f x = false) -> filter f l = [].
Proof.
  induction l as [| a l IH]; simpl; intros H; [reflexivity |].
  rewrite (H a (or_introl eq_refl)). apply IH. auto.
Qed.

Lemma incl_map_snoc {A K : Type} (key : A -> K) (l : list A) (a : A) :
  incl (map key l) (map key (l ++ [a])).
Proof. rewrite map_app. apply incl_appl, incl_refl. Qed.

Lemma existsb_none {A : Type} (f : A -> bool) (l : list A) :
  existsb f l = false -> forall x, In x l -> f x = false.
Proof.
  intros H x Hx. destruct (f x) eqn:Hf; [| reflexivity].
  rewrite <- H. symmetry. apply existsb_exists. now exists x.
Qed.

Lemma filter_all {A : Type} (f : A -> bool) (l : list A) :
  (forall x, In x l -> f x = true) -> filter f l = l.
Proof.
  induction l as [| a l IH]; simpl; intros H; [reflexivity |].
  rewrite (H a (or_introl eq_refl)). f_equal. apply IH. auto.
Qed.

Lemma filter_comm {A : Type} (f g : A -> bool) (l : list A) :
  filter f (filter g l) = filter g (filter f l).
Proof.
  induction l as [| a l IH]; simpl; [reflexivity |].
  destruct (f a) eqn:Hf, (g a) eqn:Hg; simpl; rewrite ?Hf, ?Hg, IH;
    reflexivity.
Qed.

Lemma filter_key_find {A : Type} (key : A -> text) (k : text) (l : list A) :
  NoDup (map key l) ->
  filter (fun r => String.eqb (key r) k) l =
  match find (fun r => String.eqb (key r) k) l with
  | Some r => [r]
  | None => []
  end.
Proof.
  induction l as [| a l IH]; simpl; intros H; [reflexivity |].
  inversion H; subst. destruct (String.eqb_spec (key a) k) as [Hk |].
  - rewrite filter_none; [reflexivity |].
    intros x Hx. apply String.eqb_neq. intros Hxk. apply H2.
    rewrite Hk, <- Hxk. now apply in_map.
  - now apply IH.
Qed.

Lemma select_rows_filter {R : Type} (T : table_security R) (s : session)
    (d : db) (rows : list R) (f : R -> bool) :
  (forall r, In r rows -> authorized T Select s d r = Ok (f r)) ->
  select_rows T s d rows = Ok (filter f rows).
Proof.
  induction rows as [| r rows IH]; simpl; intros H; [reflexivity |].
  rewrite (H r (or_introl eq_refl)). simpl.
  rewrite IH by (intros x Hx; apply H; right; exact Hx). simpl.
  destruct (f r); reflexivity.
Qed.

(** *** What a session reads of orders and order items *)

Lemma select_orders_spec (s : session) (d : db) :
  select_orders s d =
  Ok (filter
        (fun o => is_true
           (sql_eq_text (auth_uid s) (Some (Orders.user_id o))))
        (orders d)).
Proof.
  apply select_rows_filter. intros o _. unfold authorized, using_of. simpl.
  now rewrite orb_false_r.
Qed.

Lemma order_owner_spec (s : session) (d : db) (i : OrderItems.row) :
  NoDup (map Orders.id (orders d)) ->
  order_owner s d i =
  Ok (match parent_order d i with
      | Some o =>
          if is_true (sql_eq_text (auth_uid s) (Some (Orders.user_id o)))
          then Some (Orders.user_id o)
          else None
      | None => None
      end).
Proof.
  intros Hpk. unfold order_owner. fold (select_orders s d).
  rewrite select_orders_spec. cbn [bind]. rewrite filter_comm.
  unfold parent_order. destruct (OrderItems.order_id i) as [k |].
  - rewrite (filter_ext
               (fun o => is_true (sql_eq_text (Some (Orders.id o)) (Some k)))
               (fun o => String.eqb (Orders.id o) k))
      by (intros o; simpl; now destruct (String.eqb (Orders.id o) k)).
    rewrite (filter_key_find Orders.id k (orders d) Hpk).
    destruct (find _ (orders d)) as [o |]; simpl; [| reflexivity].
    destruct (is_true _); reflexivity.
  - rewrite (filter_none
               (fun o => is_true (sql_eq_text (Some (Orders.id o)) None))
               (orders d)) by reflexivity.
    reflexivity.
Qed.

Lemma select_order_items_spec (s : session) (d : db) :
  NoDup (map Orders.id (orders d)) ->
  select_order_items s d =
  Ok (filter
        (fun i => is_true (sql_eq_text (auth_uid s) (order_item_owner d i)))
        (order_items d)).
Proof.
  intros Hpk. apply select_rows_filter. intros i _.
  unfold authorized, using_of. simpl.
  rewrite (order_owner_spec s d i Hpk). simpl. rewrite orb_false_r.
  unfold order_item_owner. destruct (parent_order d i) as [o |]; simpl.
  - destruct (auth_uid s) as [u |]; simpl; [| reflexivity].
    destruct (String.eqb u (Orders.user_id o)) eqn:Hu; simpl;
      [now rewrite Hu | reflexivity].
  - now destruct (auth_uid s).
Qed.

Lemma public_read_admin_write_spec {R : Type} (name what : text) :
  read_by_all_written_by_admin
    (mkSecurity name true (@public_read_admin_write R what)).
Proof.
  intros s d.
  assert (Hsel : forall r,
            authorized (mkSecurity name true (@public_read_admin_write R what))
              Select s d r = Ok true).
  { intros r. unfold authorized, using_of, applies. simpl.
    destruct (String.eqb (current_role s) admin); reflexivity. }
  split; [exact Hsel | split; [| split; [| split; [| split]]]].
  - intros rows. rewrite (select_rows_filter _ s d rows (fun _ => true)).
    + f_equal. induction rows as [| r rows IH]; simpl; congruence.
    + intros r _. apply Hsel.
  - intros c r Hc. rewrite <- String.eqb_eq.
    destruct c; [congruence | | |];
      unfold authorized, using_of, check_of, applies; simpl;
      destruct (String.eqb (current_role s) admin); simpl;
      split; congruence.
  - intros r run. unfold guarded_insert, authorized, check_of, applies.
    simpl. destruct (String.eqb (current_role s) admin); reflexivity.
  - intros old set run.
    unfold guarded_update, authorized, authorized_new, using_of, check_of,
      applies.
    simpl. destruct (String.eqb (current_role s) admin); reflexivity.
  - intros old run. unfold guarded_delete, authorized, using_of, applies.
    simpl. destruct (String.eqb (current_role s) admin); reflexivity.
Qed.

Section Properties.

Context {engine_ops : engine}.

(** ** Stock quantity *)

(** C1 (as amended).  In every reachable state the stock quantity of every
    product-variant row is NULL or non-negative, and an update that would set
    a negative quantity on a row is rejected by the storage layer: the state,
    and with it the prior quantity, is unchanged. *)
Theorem variant_quantity_null_or_non_negative (d : db) :
  reachable d ->
  (forall v q,
     In v (product_variants d) ->
     ProductVariants.quantity v = Some q -> 0 <= q) /\
  (forall k set v q,
     In v (product_variants d) ->
     ProductVariants.id v = k ->
     ProductVariants.quantity (set v) = Some q -> q < 0 ->
     (exists e, exec (UpdateProductVariant k set) d = Err e) /\
     state_after (UpdateProductVariant k set) d = d).
Proof.
  intros Hd. apply reachable_consistent in Hd. split.
  - intros v q Hv Hq.
    constraint_of Hd (CheckViolation "check_quantity_non_negative").
    rewrite forallb_forall in C.
    exact (proj1 (quantity_check_spec _) (C v Hv) q Hq).
  - intros k set v q Hv Hk Hq Hneg.
    assert (Hrej : exists e, exec (UpdateProductVariant k set) d = Err e).
    { simpl. apply commit_Err.
      match goal with |- consistent ?d' = false =>
        destruct (consistent d') eqn:Hc; [exfalso | reflexivity] end.
      constraint_of Hc (CheckViolation "check_quantity_non_negative").
      simpl in C. rewrite forallb_forall in C.
      assert (Hin : In (set v)
                (update_where (fun r => String.eqb (ProductVariants.id r) k)
                   set (product_variants d))).
      { apply In_update_where; [exact Hv | now apply String.eqb_eq]. }
      pose proof (proj1 (quantity_check_spec _) (C _ Hin) q Hq). lia. }
    split; [exact Hrej |].
    destruct Hrej as [e He]. unfold state_after. now rewrite He.
Qed.

(** ** Variant uniqueness *)

(** C2 (as amended).  In every reachable state two distinct product-variant
    rows, one of which names a product, differ in their (product_id, size_id,
    color_id) triple; and an insert of a variant that names a product and
    whose triple already exists is rejected, the existing rows unchanged. *)
Theorem variant_triple_unique_when_product_named (d : db) :
  reachable d ->
  (forall v w,
     In v (product_variants d) -> In w (product_variants d) -> v <> w ->
     ProductVariants.product_id v <> None ->
     variant_triple v <> variant_triple w) /\
  (forall r w,
     In w (product_variants d) ->
     ProductVariants.product_id r <> None ->
     variant_triple r = variant_triple w ->
     (exists e, exec (InsertProductVariant r) d = Err e) /\
     state_after (InsertProductVariant r) d = d).
Proof.
  intros Hd. apply reachable_consistent in Hd.
  assert (Hkey : forall v w p, variant_triple v = variant_triple w ->
            ProductVariants.product_id v = Some p ->
            variant_key v =
              Some (p, ProductVariants.size_id v, ProductVariants.color_id v)
            /\ variant_key w = variant_key v).
  { intros v w p Ht Hp. unfold variant_triple in Ht.
    inversion Ht as [[H1 H2 H3]].
    unfold variant_key. rewrite <- H1, <- H2, <- H3, Hp. auto. }
  split.
  - intros v w Hv Hw Hne Hp Ht.
    destruct (ProductVariants.product_id v) as [p |] eqn:Hpv; [| congruence].
    destruct (Hkey v w p Ht Hpv) as [Hkv Hkw].
    constraint_of Hd
      (UniqueViolation "product_variants_product_id_size_id_color_id_key").
    apply (distinct_NoDup _ triple_eqb_eq) in C.
    apply Hne. eapply NoDup_non_null_key; eauto. congruence.
  - intros r w Hw Hp Ht.
    destruct (ProductVariants.product_id r) as [p |] eqn:Hpr; [| congruence].
    destruct (Hkey r w p Ht Hpr) as [Hkr Hkw].
    assert (Hrej : exists e, exec (InsertProductVariant r) d = Err e).
    { simpl. apply commit_Err.
      match goal with |- consistent ?d' = false =>
        destruct (consistent d') eqn:Hc; [exfalso | reflexivity] end.
      constraint_of Hc
        (UniqueViolation "product_variants_product_id_size_id_color_id_key").
      simpl in C. apply (distinct_NoDup _ triple_eqb_eq) in C.
      rewrite map_app, non_null_app in C. simpl in C. rewrite Hkr in C.
      simpl in C. apply NoDup_remove_2 in C. apply C.
      rewrite app_nil_r. apply non_null_In. rewrite <- Hkr, <- Hkw.
      now apply in_map. }
    split; [exact Hrej |].
    destruct Hrej as [e He]. unfold state_after. now rewrite He.
Qed.

(** ** Profiles *)

(** C3.  Registering a new identity (one whose identifier is not yet in
    [auth.users]) succeeds in every reachable state, whatever its metadata,
    and leaves exactly one row of [users] with that identifier; its
    [full_name] and [avatar_url] are the texts of the metadata members of
    these names, and NULL when the member (or the metadata) is absent. *)
Theorem registration_creates_one_profile (d : db) (new : AuthUsers.row) :
  reachable d ->
  ~ In (AuthUsers.id new) (map AuthUsers.id (auth_users d)) ->
  exists d' p,
    exec (Register new) d = Ok d' /\
    filter (fun u => String.eqb (Users.id u) (AuthUsers.id new)) (users d')
      = [p] /\
    Users.id p = AuthUsers.id new /\
    (forall v, json_member (AuthUsers.raw_user_meta_data new) "full_name"
                 = Some v -> Users.full_name p = json_text v) /\
    (json_member (AuthUsers.raw_user_meta_data new) "full_name" = None ->
     Users.full_name p = None) /\
    (forall v, json_member (AuthUsers.raw_user_meta_data new) "avatar_url"
                 = Some v -> Users.avatar_url p = json_text v) /\
    (json_member (AuthUsers.raw_user_meta_data new) "avatar_url" = None ->
     Users.avatar_url p = None).
Proof.
  intros Hd Hfresh. apply reachable_consistent in Hd.
  assert (Hnouser : ~ In (AuthUsers.id new) (map Users.id (users d))).
  { constraint_of Hd (ForeignKeyViolation "users_id_fkey").
    rewrite (references_spec _ String.eqb_eq) in C.
    intros Hin. apply in_map_iff in Hin. destruct Hin as [u [Hu Hin]].
    apply Hfresh. apply (C u); [exact Hin | now rewrite Hu]. }
  eexists. eexists. split; [| split; [| split]].
  - simpl. apply commit_Ok. split; [reflexivity |].
    consistent_by Hd.
    + apply (distinct_NoDup _ String.eqb_eq). rewrite map_app.
      apply NoDup_snoc; [| exact Hfresh].
      now apply (distinct_NoDup _ String.eqb_eq).
    + apply (distinct_NoDup _ String.eqb_eq). rewrite map_app.
      apply NoDup_snoc; [| exact Hnouser].
      now apply (distinct_NoDup _ String.eqb_eq).
    + apply references_app.
      * apply (references_parents_incl _ _ _ _ _ String.eqb_eq
                 (incl_map_snoc _ _ _) C).
      * unfold references. simpl. rewrite andb_true_r.
        apply (existsb_eqb_In _ String.eqb_eq). rewrite map_app.
        apply in_or_app. right. simpl. auto.
    + apply (references_parents_incl _ _ _ _ _ String.eqb_eq
               (incl_map_snoc _ _ _) C).
    + apply (references_parents_incl _ _ _ _ _ String.eqb_eq
               (incl_map_snoc _ _ _) C).
  - simpl. rewrite filter_app. rewrite filter_none.
    + simpl. rewrite String.eqb_refl. reflexivity.
    + intros u Hu. destruct (String.eqb_spec (Users.id u) (AuthUsers.id new))
        as [Heq |]; [| reflexivity].
      elim Hnouser. rewrite <- Heq. now apply in_map.
  - reflexivity.
  - simpl. unfold json_member_text. repeat split.
    + intros v ->. reflexivity.
    + intros ->. reflexivity.
    + intros v ->. reflexivity.
    + intros ->. reflexivity.
Qed.

(** ** Deleting an order *)

(** C8 (the code misses it).  The order items of an order are not deleted
    with it.  [order_items.order_id] carries, next to the cascading
    [fk_order_items_order_id], the inline key [order_items_order_id_fkey],
    which has no action and is checked first: in every reachable state the
    deletion of an order that has an item is rejected and removes nothing,
    and a deletion that goes through is that of an order without items; it
    leaves [order_items] as it was. *)
Theorem delete_order_never_cascades (d : db) (k : text) :
  reachable d ->
  (forall i,
     In i (order_items d) -> OrderItems.order_id i = Some k ->
     exec (DeleteOrder k) d
       = Err (ForeignKeyViolation "order_items_order_id_fkey") /\
     state_after (DeleteOrder k) d = d) /\
  (forall d',
     exec (DeleteOrder k) d = Ok d' ->
     order_items d' = order_items d /\
     orders d' =
       filter (fun o => negb (String.eqb (Orders.id o) k)) (orders d) /\
     (forall i, In i (order_items d) -> OrderItems.order_id i <> Some k)).
Proof.
  intros Hd. apply reachable_consistent in Hd.
  constraint_of Hd (ForeignKeyViolation "fk_order_items_order_id").
  rewrite (references_spec _ String.eqb_eq) in C.
  assert (Hparent : forall i, In i (order_items d) ->
            OrderItems.order_id i = Some k ->
            existsb (fun r => String.eqb (Orders.id r) k) (orders d) = true).
  { intros i Hi Hk. specialize (C i k Hi Hk). apply in_map_iff in C.
    destruct C as [o [Ho Hin]]. apply existsb_exists. exists o.
    split; [exact Hin | now apply String.eqb_eq]. }
  split.
  - intros i Hi Hk.
    assert (Hitem : existsb (fun i => opt_text_is k (OrderItems.order_id i))
                      (order_items d) = true).
    { apply existsb_exists. exists i. split; [exact Hi |].
      now apply opt_text_is_eq. }
    assert (Hex : exec (DeleteOrder k) d
                  = Err (ForeignKeyViolation "order_items_order_id_fkey")).
    { unfold exec. now rewrite (Hparent i Hi Hk), Hitem. }
    split; [exact Hex |]. unfold state_after. now rewrite Hex.
  - intros d'. unfold exec.
    destruct (existsb (fun r => String.eqb (Orders.id r) k) (orders d))
      eqn:Horder;
      [destruct (existsb (fun i => opt_text_is k (OrderItems.order_id i))
                   (order_items d)) eqn:Hitem; [discriminate |] |];
      intros Hex; apply commit_Ok in Hex; destruct Hex as [-> _].
    + pose proof (existsb_none _ _ Hitem) as Hnone.
      cbn [order_items orders set_order_items set_orders].
      split; [| split; [reflexivity |]].
      * unfold delete_where. apply filter_all. intros i Hi.
        now rewrite (Hnone i Hi).
      * intros i Hi Hk. apply opt_text_is_eq in Hk.
        rewrite (Hnone i Hi) in Hk. discriminate.
    + pose proof (existsb_none _ _ Horder) as Hnone.
      split; [reflexivity | split].
      * symmetry. apply filter_all. intros o Ho. now rewrite (Hnone o Ho).
      * intros i Hi Hk. discriminate (Hparent i Hi Hk).
Qed.

(** ** Reading orders and order items *)

(** C4.  A session of user [u] reads from [orders] exactly the rows whose
    [user_id] is [u], and from [order_items] exactly the rows whose parent
    order belongs to [u]; a query of [u] for orders or order items of others
    returns the empty result, not an error. *)
Theorem own_orders_only (d : db) (s : session) (u : uuid) :
  reachable d ->
  auth_uid s = Some u ->
  select_orders s d =
    Ok (filter (fun o => String.eqb (Orders.user_id o) u) (orders d)) /\
  select_order_items s d =
    Ok (filter (fun i => owned_by u (order_item_owner d i)) (order_items d))
  /\
  (forall cond,
     (forall o, cond o = true -> Orders.user_id o <> u) ->
     query orders_security s d (orders d) cond = Ok []) /\
  (forall cond,
     (forall i, cond i = true -> order_item_owner d i <> Some u) ->
     query order_items_security s d (order_items d) cond = Ok []).
Proof.
  intros Hd Hu. apply reachable_consistent in Hd.
  constraint_of Hd (UniqueViolation "orders_pkey").
  apply (distinct_NoDup _ String.eqb_eq) in C.
  assert (Horders : select_orders s d =
            Ok (filter (fun o => String.eqb (Orders.user_id o) u) (orders d))).
  { rewrite select_orders_spec, Hu. f_equal. apply filter_ext. intros o.
    simpl. rewrite String.eqb_sym. now destruct (String.eqb _ u). }
  assert (Hitems : select_order_items s d =
            Ok (filter (fun i => owned_by u (order_item_owner d i))
                  (order_items d))).
  { rewrite (select_order_items_spec s d C), Hu. f_equal. apply filter_ext.
    intros i. destruct (order_item_owner d i) as [v |]; simpl;
      [| reflexivity].
    rewrite String.eqb_sym. now destruct (String.eqb v u). }
  split; [exact Horders | split; [exact Hitems | split]].
  - intros cond Hcond. unfold query. fold (select_orders s d).
    rewrite Horders. simpl. f_equal. apply filter_none. intros o Ho.
    apply filter_In in Ho. destruct Ho as [_ Ho]. apply String.eqb_eq in Ho.
    destruct (cond o) eqn:Hc; [| reflexivity]. now elim (Hcond o Hc).
  - intros cond Hcond. unfold query. fold (select_order_items s d).
    rewrite Hitems. simpl. f_equal. apply filter_none. intros i Hi.
    apply filter_In in Hi. destruct Hi as [_ Hi].
    destruct (cond i) eqn:Hc; [| reflexivity]. elim (Hcond i Hc).
    unfold owned_by in Hi. destruct (order_item_owner d i) as [v |];
      [| discriminate].
    apply String.eqb_eq in Hi. now subst.
Qed.

(** C10.  For an order item whose [order_id] is NULL the subquery of the
    select policy yields no owner, the policy does not hold for any session,
    and the row is in no session's read of [order_items]. *)
Theorem null_order_item_is_invisible (d : db) (s : session)
    (i : OrderItems.row) :
  reachable d ->
  OrderItems.order_id i = None ->
  order_owner s d i = Ok None /\
  authorized order_items_security Select s d i = Ok false /\
  exists rows, select_order_items s d = Ok rows /\ ~ In i rows.
Proof.
  intros Hd Hnull. apply reachable_consistent in Hd.
  constraint_of Hd (UniqueViolation "orders_pkey").
  apply (distinct_NoDup _ String.eqb_eq) in C.
  assert (Hparent : parent_order d i = None).
  { unfold parent_order. now rewrite Hnull. }
  assert (Howner : order_owner s d i = Ok None).
  { rewrite (order_owner_spec s d i C), Hparent. reflexivity. }
  split; [exact Howner | split].
  - unfold authorized, using_of. simpl. rewrite Howner. simpl.
    now destruct (auth_uid s).
  - eexists. split; [exact (select_order_items_spec s d C) |].
    intros Hin. apply filter_In in Hin. destruct Hin as [_ Hin].
    unfold order_item_owner in Hin. rewrite Hparent in Hin. simpl in Hin.
    destruct (auth_uid s); discriminate.
Qed.

(** ** Currency codes *)

(** C5 (as amended).  On [prices], [orders] and [order_items] a write is
    accepted only if the currency it writes is NULL or exactly three
    characters long; a write of the currency US or USDX is rejected and
    leaves the state as it was. *)
Theorem currency_null_or_three_characters (st : stmt) (d : db) :
  (forall d' c,
     exec st d = Ok d' -> In c (written_currencies st d) ->
     c = None \/ exists code, c = Some code /\ String.length code = 3%nat) /\
  (In (Some "US") (written_currencies st d) \/
   In (Some "USDX") (written_currencies st d) ->
   (exists e, exec st d = Err e) /\ state_after st d = d).
Proof.
  assert (Hok : forall d' c,
            exec st d = Ok d' -> In c (written_currencies st d) ->
            currency_check c = true).
  { assert (Hwritten : forall (c : option text) (R : Type)
              (cur : R -> option text) (p : R -> bool) (set : R -> R)
              (rows : list R),
              In c (map (fun r => cur (set r)) (filter p rows)) ->
              forallb (fun r => currency_check (cur r))
                (update_where p set rows) = true ->
              currency_check c = true).
    { intros c R cur p set rows Hin Hall. apply in_map_iff in Hin.
      destruct Hin as [r [<- Hr]]. apply filter_In in Hr.
      destruct Hr as [Hr Hp]. rewrite forallb_forall in Hall.
      apply (Hall (set r)). now apply In_update_where. }
    assert (Hadded : forall (R : Type) (cur : R -> option text)
              (rows : list R) (r : R),
              forallb (fun r => currency_check (cur r)) (rows ++ [r]) = true ->
              currency_check (cur r) = true).
    { intros R cur rows r Hall. rewrite forallb_app in Hall. simpl in Hall.
      now rewrite andb_true_r, andb_true_iff in Hall. }
    intros d' c. destruct st; simpl; intros Hex Hc; try contradiction;
      apply commit_Ok in Hex; destruct Hex as [_ Hex].
    - destruct Hc as [<- | []].
      constraint_of Hex (CheckViolation "prices_currency_check").
      exact (Hadded _ _ _ _ C).
    - constraint_of Hex (CheckViolation "prices_currency_check").
      exact (Hwritten _ _ _ _ _ _ Hc C).
    - destruct Hc as [<- | []].
      constraint_of Hex (CheckViolation "orders_currency_check").
      exact (Hadded _ _ _ _ C).
    - constraint_of Hex (CheckViolation "orders_currency_check").
      exact (Hwritten _ _ _ _ _ _ Hc C).
    - destruct Hc as [<- | []].
      constraint_of Hex (CheckViolation "order_items_currency_check").
      exact (Hadded _ _ _ _ C).
    - constraint_of Hex (CheckViolation "order_items_currency_check").
      exact (Hwritten _ _ _ _ _ _ Hc C). }
  split.
  - intros d' c Hex Hc. pose proof (Hok d' c Hex Hc) as Hcheck.
    destruct c as [code |]; [right | now left].
    exists code. split; [reflexivity |].
    exact (proj1 (currency_check_spec _) Hcheck code eq_refl).
  - intros Hbad.
    assert (Hrej : exists e, exec st d = Err e).
    { destruct (exec st d) as [d' | e] eqn:Hex; [exfalso | now exists e].
      destruct Hbad as [Hbad | Hbad];
        pose proof (Hok d' _ eq_refl Hbad) as Hcheck; discriminate Hcheck. }
    split; [exact Hrej |].
    destruct Hrej as [e He]. unfold state_after. now rewrite He.
Qed.

(** ** Order status *)

(** C6 (as amended).  The order-status domain is the closed enumeration of
    exactly thirteen lifecycle states, the names the script records in
    [order_statuses]; in every reachable state the status of every order row
    is NULL or a member of the enumeration, and an order with any other
    status is not accepted. *)
Theorem order_status_null_or_enumerated (d : db) :
  reachable d ->
  order_status_labels =
    [ "pending_payment"; "created"; "processing"; "partially_shipped";
      "shipped"; "out_for_delivery"; "delivered"; "return_requested";
      "return_shipped"; "returned"; "partially_refunded"; "refunded";
      "canceled" ] /\
  List.length order_status_labels = 13%nat /\
  NoDup order_status_labels /\
  map OrderStatuses.name (order_statuses schema_init) = order_status_labels
  /\
  (forall o st,
     In o (orders d) -> Orders.status o = Some st ->
     In st order_status_labels) /\
  (forall r st,
     Orders.status r = Some st -> ~ In st order_status_labels ->
     exists e, exec (InsertOrder r) d = Err e).
Proof.
  intros Hd. apply reachable_consistent in Hd.
  split; [reflexivity | split; [reflexivity | split; [| split;
    [reflexivity | split]]]].
  - apply (distinct_NoDup _ String.eqb_eq). reflexivity.
  - intros o st Ho Hst.
    constraint_of Hd (InvalidEnumValue "order_status").
    rewrite forallb_forall in C. specialize (C o Ho).
    rewrite Hst in C. now apply (existsb_eqb_In _ String.eqb_eq).
  - intros r st Hst Hout. simpl. apply commit_Err.
    match goal with |- consistent ?d' = false =>
      destruct (consistent d') eqn:Hc; [exfalso | reflexivity] end.
    constraint_of Hc (InvalidEnumValue "order_status").
    simpl in C. rewrite forallb_app in C. simpl in C.
    rewrite andb_true_r, andb_true_iff in C. destruct C as [_ C].
    rewrite Hst in C. apply Hout.
    now apply (existsb_eqb_In _ String.eqb_eq).
Qed.

(** ** Public reference tables and the product change log *)

(** C7.  On [sizes], [colors], [products] and [product_variants] a
    session of any role, the anonymous one included, selects every row,
    and its insert, update or delete takes effect if and only if its role
    is [admin]: for [admin] it is the statement of the storage layer (an
    accepted insert adds the row), for any other role an insert is refused
    and an update or delete affects no row. *)
Theorem public_tables_read_by_all_written_by_admin (s : session) (d : db) :
  (select_sizes s d = Ok (sizes d) /\
   select_colors s d = Ok (colors d) /\
   select_products s d = Ok (products d) /\
   select_product_variants s d = Ok (product_variants d)) /\
  ((forall r,
      session_exec s (InsertSize r) d =
      if String.eqb (current_role s) admin then exec (InsertSize r) d
      else Err (RowSecurityViolation "sizes")) /\
   (forall r,
      session_exec s (InsertColor r) d =
      if String.eqb (current_role s) admin then exec (InsertColor r) d
      else Err (RowSecurityViolation "colors")) /\
   (forall r,
      session_exec s (InsertProduct r) d =
      if String.eqb (current_role s) admin then exec (InsertProduct r) d
      else Err (RowSecurityViolation "products")) /\
   (forall r,
      session_exec s (InsertProductVariant r) d =
      if String.eqb (current_role s) admin
      then exec (InsertProductVariant r) d
      else Err (RowSecurityViolation "product_variants"))) /\
  ((forall k set,
      session_exec s (UpdateSize k set) d =
      match find (fun r => Z.eqb (Sizes.id r) k) (sizes d) with
      | Some _ =>
          if String.eqb (current_role s) admin
          then exec (UpdateSize k set) d else Ok d
      | None => Ok d
      end) /\
   (forall k set,
      session_exec s (UpdateColor k set) d =
      match find (fun r => Z.eqb (Colors.id r) k) (colors d) with
      | Some _ =>
          if String.eqb (current_role s) admin
          then exec (UpdateColor k set) d else Ok d
      | None => Ok d
      end) /\
   (forall k set,
      session_exec s (UpdateProduct k set) d =
      match find (fun r => Z.eqb (Products.id r) k) (products d) with
      | Some _ =>
          if String.eqb (current_role s) admin
          then exec (UpdateProduct k set) d else Ok d
      | None => Ok d
      end) /\
   (forall k set,
      session_exec s (UpdateProductVariant k set) d =
      match find (fun r => String.eqb (ProductVariants.id r) k)
              (product_variants d) with
      | Some _ =>
          if String.eqb (current_role s) admin
          then exec (UpdateProductVariant k set) d else Ok d
      | None => Ok d
      end)) /\
  ((forall k,
      session_exec s (DeleteSize k) d =
      match find (fun r => Z.eqb (Sizes.id r) k) (sizes d) with
      | Some _ =>
          if String.eqb (current_role s) admin
          then exec (DeleteSize k) d else Ok d
      | None => Ok d
      end) /\
   (forall k,
      session_exec s (DeleteColor k) d =
      match find (fun r => Z.eqb (Colors.id r) k) (colors d) with
      | Some _ =>
          if String.eqb (current_role s) admin
          then exec (DeleteColor k) d else Ok d
      | None => Ok d
      end) /\
   (forall k,
      session_exec s (DeleteProduct k) d =
      match find (fun r => Z.eqb (Products.id r) k) (products d) with
      | Some _ =>
          if String.eqb (current_role s) admin
          then exec (DeleteProduct k) d else Ok d
      | None => Ok d
      end) /\
   (forall k,
      session_exec s (DeleteProductVariant k) d =
      match find (fun r => String.eqb (ProductVariants.id r) k)
              (product_variants d) with
      | Some _ =>
          if String.eqb (current_role s) admin
          then exec (DeleteProductVariant k) d else Ok d
      | None => Ok d
      end)) /\
  (current_role s = admin ->
   (forall r d', session_exec s (InsertSize r) d = Ok d' ->
      sizes d' = (sizes d ++ [r])%list) /\
   (forall r d', session_exec s (InsertColor r) d = Ok d' ->
      colors d' = (colors d ++ [r])%list) /\
   (forall r d', session_exec s (InsertProduct r) d = Ok d' ->
      products d' = (products d ++ [r])%list) /\
   (forall r d', session_exec s (InsertProductVariant r) d = Ok d' ->
      product_variants d' = (product_variants d ++ [r])%list)).
Proof.
  destruct (public_read_admin_write_spec "sizes" "sizes" s d
            : _ /\ (forall rows, select_rows sizes_security _ _ rows = _)
              /\ _)
    as [_ [Hsel1 [_ [Hins1 [Hupd1 Hdel1]]]]].
  destruct (public_read_admin_write_spec "colors" "colors" s d
            : _ /\ (forall rows, select_rows colors_security _ _ rows = _)
              /\ _)
    as [_ [Hsel2 [_ [Hins2 [Hupd2 Hdel2]]]]].
  destruct (public_read_admin_write_spec "products" "products" s d
            : _ /\ (forall rows, select_rows products_security _ _ rows = _)
              /\ _)
    as [_ [Hsel3 [_ [Hins3 [Hupd3 Hdel3]]]]].
  destruct (public_read_admin_write_spec "product_variants"
              "product variants" s d
            : _ /\ (forall rows,
                      select_rows product_variants_security _ _ rows = _)
              /\ _)
    as [_ [Hsel4 [_ [Hins4 [Hupd4 Hdel4]]]]].
  assert (Hinsert :
    (forall r, session_exec s (InsertSize r) d =
       if String.eqb (current_role s) admin then exec (InsertSize r) d
       else Err (RowSecurityViolation "sizes")) /\
    (forall r, session_exec s (InsertColor r) d =
       if String.eqb (current_role s) admin then exec (InsertColor r) d
       else Err (RowSecurityViolation "colors")) /\
    (forall r, session_exec s (InsertProduct r) d =
       if String.eqb (current_role s) admin then exec (InsertProduct r) d
       else Err (RowSecurityViolation "products")) /\
    (forall r, session_exec s (InsertProductVariant r) d =
       if String.eqb (current_role s) admin
       then exec (InsertProductVariant r) d
       else Err (RowSecurityViolation "product_variants"))).
  { repeat split; intros r; unfold session_exec;
      [apply Hins1 | apply Hins2 | apply Hins3 | apply Hins4]. }
  split; [| split; [exact Hinsert | split; [| split]]].
  - repeat split; [apply Hsel1 | apply Hsel2 | apply Hsel3 | apply Hsel4].
  - repeat split; intros k set; unfold session_exec;
      match goal with
      | |- guarded_update _ _ _ (find ?f ?l) _ _ = _ =>
          destruct (find f l) as [old |]; [| reflexivity]
      end;
      [apply Hupd1 | apply Hupd2 | apply Hupd3 | apply Hupd4].
  - repeat split; intros k; unfold session_exec;
      match goal with
      | |- guarded_delete _ _ _ (find ?f ?l) _ = _ =>
          destruct (find f l) as [old |]; [| reflexivity]
      end;
      [apply Hdel1 | apply Hdel2 | apply Hdel3 | apply Hdel4].
  - intros Hadmin. apply String.eqb_eq in Hadmin.
    destruct Hinsert as [Hi1 [Hi2 [Hi3 Hi4]]].
    repeat split; intros r d';
      [rewrite Hi1 | rewrite Hi2 | rewrite Hi3 | rewrite Hi4];
      rewrite Hadmin; simpl; intros Hex; apply commit_Ok in Hex;
      destruct Hex as [-> _]; reflexivity.
Qed.

(** C9.  On [product_changes] a select is authorized for [admin] only (any
    other role reads no row), and no role, [admin] included, is authorized
    to insert, update or delete: an insert is refused, an update or delete
    affects no row, so no session appends to the change log. *)
Theorem product_changes_read_by_admin_written_by_none (s : session)
    (d : db) :
  (forall r, authorized product_changes_security Select s d r = Ok true <->
             current_role s = admin) /\
  (forall c r, c <> Select ->
     authorized product_changes_security c s d r = Ok false) /\
  select_product_changes s d =
    Ok (if String.eqb (current_role s) admin then product_changes d
        else []) /\
  (forall r, session_exec s (InsertProductChange r) d =
             Err (RowSecurityViolation "product_changes")) /\
  (forall k set, session_exec s (UpdateProductChange k set) d = Ok d) /\
  (forall k, session_exec s (DeleteProductChange k) d = Ok d).
Proof.
  assert (Hsel : forall r,
            authorized product_changes_security Select s d r =
            Ok (String.eqb (current_role s) admin)).
  { intros r. unfold authorized, using_of, applies. simpl.
    destruct (String.eqb (current_role s) admin); reflexivity. }
  assert (Hwrite : forall c r, c <> Select ->
            authorized product_changes_security c s d r = Ok false).
  { intros c r Hc. destruct c; [congruence | | |];
      unfold authorized, using_of, check_of, applies; simpl;
      destruct (String.eqb (current_role s) admin); reflexivity. }
  split; [| split; [exact Hwrite | split; [| split; [| split]]]].
  - intros r. rewrite Hsel, <- String.eqb_eq. split; congruence.
  - unfold select_product_changes.
    rewrite (select_rows_filter _ s d _
               (fun _ => String.eqb (current_role s) admin))
      by (intros r _; apply Hsel).
    f_equal. destruct (String.eqb (current_role s) admin).
    + induction (product_changes d) as [| r l IH]; simpl; congruence.
    + now apply filter_none.
  - intros r. unfold session_exec, guarded_insert.
    rewrite (Hwrite Insert r) by discriminate. reflexivity.
  - intros k set. unfold session_exec, guarded_update.
    destruct (find _ (product_changes d)) as [old |]; [| reflexivity].
    rewrite (Hwrite Update old) by discriminate. reflexivity.
  - intros k. unfold session_exec, guarded_delete.
    destruct (find _ (product_changes d)) as [old |]; [| reflexivity].
    rewrite (Hwrite Delete old) by discriminate. reflexivity.
Qed.

End Properties.

(** * Further properties of the schema *)

Lemma is_user_eq (s : session) (k : uuid) :
  is_user s k = true <-> auth_uid s = Some k.
Proof. apply opt_text_is_eq. Qed.

Lemma find_key_eq {A : Type} (key : A -> text) (k : text) (l : list A)
    (a : A) :
  find (fun r => String.eqb (key r) k) l = Some a -> In a l /\ key a = k.
Proof.
  intros H. apply find_some in H. now rewrite String.eqb_eq in H.
Qed.

(** *** The policies of [users] *)

Lemma users_policies (s : session) (d : db) (r : Users.row) :
  authorized users_security Select s d r = Ok (is_user s (Users.id r)) /\
  authorized users_security Update s d r = Ok (is_user s (Users.id r)) /\
  authorized_new users_security s d r = Ok (is_user s (Users.id r)) /\
  authorized users_security Insert s d r = Ok false /\
  authorized users_security Delete s d r = Ok false.
Proof.
  unfold authorized, authorized_new, using_of, check_of, applies, is_user.
  simpl. destruct (is_true (sql_eq_text (auth_uid s) (Some (Users.id r))));
    repeat split; reflexivity.
Qed.

Lemma select_users_spec (s : session) (d : db) :
  select_users s d =
  Ok (filter (fun r => is_user s (Users.id r)) (users d)).
Proof.
  apply select_rows_filter. intros r _. apply users_policies.
Qed.

(** *** Tables without write policies, tables without row-level security *)

Lemma customers_policies (s : session) (d : db) (r : Customers.row)
    (c : command) :
  authorized customers_security c s d r = Ok false.
Proof. destruct c; reflexivity. Qed.

Lemma prices_policies (s : session) (d : db) (r : Prices.row) :
  authorized prices_security Select s d r
    = Ok (String.eqb (current_role s) admin) /\
  forall c, c <> Select -> authorized prices_security c s d r = Ok false.
Proof.
  split.
  - unfold authorized, using_of, applies. simpl.
    destruct (String.eqb (current_role s) admin); reflexivity.
  - intros c Hc. destruct c; [congruence | | |];
      unfold authorized, using_of, check_of, applies; simpl;
      destruct (String.eqb (current_role s) admin); reflexivity.
Qed.

Lemma orders_policies (s : session) (d : db) (o : Orders.row) (c : command) :
  c <> Select -> authorized orders_security c s d o = Ok false.
Proof.
  intros Hc. destruct c; [congruence | | |];
    unfold authorized, using_of, check_of, applies; simpl;
    try reflexivity;
    destruct (is_true (sql_eq_text (auth_uid s) (Some (Orders.user_id o))));
    reflexivity.
Qed.

Lemma order_items_policies (s : session) (d : db) (i : OrderItems.row)
    (c : command) :
  NoDup (map Orders.id (orders d)) ->
  c <> Select -> authorized order_items_security c s d i = Ok false.
Proof.
  intros Hpk Hc. destruct c; [congruence | reflexivity | |];
    unfold authorized, using_of, applies; simpl;
    rewrite (order_owner_spec s d i Hpk); simpl;
    match goal with
    | |- Ok (?b && false) = _ => destruct b; reflexivity
    end.
Qed.

Lemma select_rows_all {R : Type} (T : table_security R) (s : session)
    (d : db) (rows : list R) :
  (forall r, authorized T Select s d r = Ok true) ->
  select_rows T s d rows = Ok rows.
Proof.
  intros H. rewrite (select_rows_filter T s d rows (fun _ => true)).
  - f_equal. induction rows as [| r rows IH]; simpl; congruence.
  - intros r _. apply H.
Qed.

Lemma select_rows_none {R : Type} (T : table_security R) (s : session)
    (d : db) (rows : list R) :
  (forall r, authorized T Select s d r = Ok false) ->
  select_rows T s d rows = Ok [].
Proof.
  intros H. rewrite (select_rows_filter T s d rows (fun _ => false)).
  - f_equal. now apply filter_none.
  - intros r _. apply H.
Qed.

(** *** Keys under deletion *)

Lemma NoDup_non_null_filter {A K : Type} (key : A -> option K)
    (p : A -> bool) (l : list A) :
  NoDup (non_null (map key l)) -> NoDup (non_null (map key (filter p l))).
Proof.
  induction l as [| a l IH]; simpl; intros H; [constructor |].
  destruct (key a) as [t |] eqn:Ht; destruct (p a); simpl; rewrite ?Ht.
  - inversion H; subst. constructor; [| now apply IH].
    intros Hin. apply H2. apply non_null_In. apply non_null_In in Hin.
    apply in_map_iff in Hin. destruct Hin as [x [Hx Hin]].
    apply filter_In in Hin. rewrite <- Hx. apply in_map. tauto.
  - inversion H; subst. now apply IH.
  - now apply IH.
  - now apply IH.
Qed.

(** A foreign key survives the deletion of parent rows when every row kept
    in the referencing table refers to a parent row that is kept. *)
Lemma references_restrict {C P K : Type} (eqb : K -> K -> bool)
    (col : C -> option K) (key : P -> K) (keep : P -> bool)
    (children children' : list C) (parents : list P) :
  (forall a b, eqb a b = true <-> a = b) ->
  references eqb col children (map key parents) = true ->
  (forall c, In c children' -> In c children) ->
  (forall c r, In c children' -> In r parents -> col c = Some (key r) ->
               keep r = true) ->
  references eqb col children' (map key (filter keep parents)) = true.
Proof.
  intros Heq. rewrite !(references_spec eqb Heq). intros H Hsub Hkeep c j Hc Hj.
  specialize (H c j (Hsub c Hc) Hj). apply in_map_iff in H.
  destruct H as [r [Hr Hrin]]. apply in_map_iff. exists r.
  split; [exact Hr |]. apply filter_In. split; [exact Hrin |].
  apply (Hkeep c r Hc Hrin). now rewrite Hr.
Qed.

Section MoreProperties.

Context {engine_ops : engine}.

Lemma register_accepted (d : db) (new : AuthUsers.row) :
  consistent d = true ->
  ~ In (AuthUsers.id new) (map AuthUsers.id (auth_users d)) ->
  ~ In (AuthUsers.id new) (map Users.id (users d)) /\
  exec (Register new) d =
    Ok (handle_new_user new (set_auth_users (auth_users d ++ [new]) d)).
Proof.
  intros Hd Hfresh.
  assert (Hnouser : ~ In (AuthUsers.id new) (map Users.id (users d))).
  { constraint_of Hd (ForeignKeyViolation "users_id_fkey").
    rewrite (references_spec _ String.eqb_eq) in C.
    intros Hin. apply in_map_iff in Hin. destruct Hin as [u [Hu Hin]].
    apply Hfresh. apply (C u); [exact Hin | now rewrite Hu]. }
  split; [exact Hnouser |].
  simpl. apply commit_Ok. split; [reflexivity |].
  consistent_by Hd.
  - apply (distinct_NoDup _ String.eqb_eq). rewrite map_app.
    apply NoDup_snoc; [| exact Hfresh].
    now apply (distinct_NoDup _ String.eqb_eq).
  - apply (distinct_NoDup _ String.eqb_eq). rewrite map_app.
    apply NoDup_snoc; [| exact Hnouser].
    now apply (distinct_NoDup _ String.eqb_eq).
  - apply references_app.
    + apply (references_parents_incl _ _ _ _ _ String.eqb_eq
               (incl_map_snoc _ _ _) C).
    + unfold references. simpl. rewrite andb_true_r.
      apply (existsb_eqb_In _ String.eqb_eq). rewrite map_app.
      apply in_or_app. right. simpl. auto.
  - apply (references_parents_incl _ _ _ _ _ String.eqb_eq
             (incl_map_snoc _ _ _) C).
  - apply (references_parents_incl _ _ _ _ _ String.eqb_eq
             (incl_map_snoc _ _ _) C).
Qed.

(** X1.  A session reads from [users] its own profile row and nothing
    else: the session of user [u] gets the rows whose [id] is [u], of which
    there is at most one, and an anonymous session gets no row. *)
Theorem own_profile_only (d : db) (s : session) :
  reachable d ->
  (auth_uid s = None -> select_users s d = Ok []) /\
  (forall u,
     auth_uid s = Some u ->
     select_users s d =
       Ok (filter (fun r => String.eqb (Users.id r) u) (users d)) /\
     (List.length (filter (fun r => String.eqb (Users.id r) u) (users d))
      <= 1)%nat).
Proof.
  intros Hd. apply reachable_consistent in Hd.
  constraint_of Hd (UniqueViolation "users_pkey").
  apply (distinct_NoDup _ String.eqb_eq) in C.
  rewrite select_users_spec. split.
  - intros Hanon. f_equal. apply filter_none. intros r _.
    unfold is_user. now rewrite Hanon.
  - intros u Hu. split.
    + f_equal. apply filter_ext. intros r. unfold is_user. rewrite Hu.
      simpl. rewrite String.eqb_sym. now destruct (String.eqb _ u).
    + rewrite (filter_key_find Users.id u (users d) C).
      destruct (find _ (users d)); simpl; lia.
Qed.

(** X2.  The trigger and the select policy together: once a new identity is
    registered, a session of that identity, whatever its role, reads exactly
    one row of [users], the profile the trigger made from its metadata. *)
Theorem new_user_reads_own_profile (d : db) (new : AuthUsers.row)
    (role : text) :
  reachable d ->
  ~ In (AuthUsers.id new) (map AuthUsers.id (auth_users d)) ->
  exists d' p,
    exec (Register new) d = Ok d' /\
    select_users (mkSession role (Some (AuthUsers.id new))) d' = Ok [p] /\
    Users.id p = AuthUsers.id new /\
    Users.full_name p =
      json_member_text (AuthUsers.raw_user_meta_data new) "full_name" /\
    Users.avatar_url p =
      json_member_text (AuthUsers.raw_user_meta_data new) "avatar_url".
Proof.
  intros Hd Hfresh. apply reachable_consistent in Hd.
  destruct (register_accepted d new Hd Hfresh) as [Hnouser Hex].
  eexists. eexists. split; [exact Hex |].
  split.
  - rewrite select_users_spec. simpl. rewrite filter_app.
    rewrite filter_none.
    + simpl. unfold is_user. simpl. rewrite String.eqb_refl. reflexivity.
    + intros u Hu. unfold is_user. simpl.
      destruct (String.eqb_spec (AuthUsers.id new) (Users.id u)) as [Heq |];
        [| reflexivity].
      elim Hnouser. rewrite Heq. now apply in_map.
  - repeat split; reflexivity.
Qed.

(** X3.  Writes of a session to [users]: an insert is refused and a delete
    affects no row, whoever asks; an update of another user's profile
    affects no row; an update of the own profile that would move it to
    another identifier is refused; any other update of the own profile is
    the statement of the storage layer. *)
Theorem own_profile_update_only (s : session) (d : db) :
  (forall r, session_exec s (InsertUser r) d
             = Err (RowSecurityViolation "users")) /\
  (forall k, session_exec s (DeleteUser k) d = Ok d) /\
  (forall k set old,
     find (fun r => String.eqb (Users.id r) k) (users d) = Some old ->
     (auth_uid s <> Some k -> session_exec s (UpdateUser k set) d = Ok d) /\
     (auth_uid s = Some k -> Users.id (set old) <> k ->
      session_exec s (UpdateUser k set) d
      = Err (RowSecurityViolation "users")) /\
     (auth_uid s = Some k -> Users.id (set old) = k ->
      session_exec s (UpdateUser k set) d = exec (UpdateUser k set) d)).
Proof.
  split; [| split].
  - intros r. unfold session_exec, guarded_insert.
    destruct (users_policies s d r) as [_ [_ [_ [-> _]]]]. reflexivity.
  - intros k. unfold session_exec, guarded_delete.
    destruct (find _ (users d)) as [old |]; [| reflexivity].
    destruct (users_policies s d old) as [_ [_ [_ [_ ->]]]]. reflexivity.
  - intros k set old Hfind.
    destruct (find_key_eq Users.id k (users d) old Hfind) as [_ Hk].
    unfold session_exec, guarded_update. rewrite Hfind.
    destruct (users_policies s d old) as [_ [-> _]].
    destruct (users_policies s d (set old)) as [_ [_ [-> _]]].
    rewrite Hk. cbn [bind]. split; [| split].
    + intros Hother. rewrite <- is_user_eq in Hother.
      now destruct (is_user s k).
    + intros Hown Hmove. rewrite (proj2 (is_user_eq s k) Hown).
      destruct (is_user s (Users.id (set old))) eqn:Hnew; [| reflexivity].
      apply is_user_eq in Hnew. congruence.
    + intros Hown Hstay. rewrite Hstay, (proj2 (is_user_eq s k) Hown).
      reflexivity.
Qed.

(** X4.  [customers] is closed to every session: a session of any role
    reads no row, its insert is refused, and its update or delete affects no
    row. *)
Theorem customers_closed_to_sessions (s : session) (d : db) :
  select_customers s d = Ok [] /\
  (forall r, session_exec s (InsertCustomer r) d
             = Err (RowSecurityViolation "customers")) /\
  (forall k set, session_exec s (UpdateCustomer k set) d = Ok d) /\
  (forall k, session_exec s (DeleteCustomer k) d = Ok d).
Proof.
  split; [| split; [| split]].
  - apply select_rows_none. intros r. apply customers_policies.
  - intros r. reflexivity.
  - intros k set. unfold session_exec, guarded_update.
    destruct (find _ (customers d)); reflexivity.
  - intros k. unfold session_exec, guarded_delete.
    destruct (find _ (customers d)); reflexivity.
Qed.

(** X5.  [prices] is read by [admin] alone and written by no session: any
    other role reads no row, an insert is refused for every role, [admin]
    included, and an update or delete affects no row. *)
Theorem prices_read_by_admin_written_by_none (s : session) (d : db) :
  select_prices s d =
    Ok (if String.eqb (current_role s) admin then prices d else []) /\
  (forall r, session_exec s (InsertPrice r) d
             = Err (RowSecurityViolation "prices")) /\
  (forall k set, session_exec s (UpdatePrice k set) d = Ok d) /\
  (forall k, session_exec s (DeletePrice k) d = Ok d).
Proof.
  split; [| split; [| split]].
  - unfold select_prices.
    destruct (String.eqb (current_role s) admin) eqn:Hrole.
    + apply select_rows_all. intros r.
      rewrite (proj1 (prices_policies s d r)). now rewrite Hrole.
    + apply select_rows_none. intros r.
      rewrite (proj1 (prices_policies s d r)). now rewrite Hrole.
  - intros r. unfold session_exec, guarded_insert.
    rewrite (proj2 (prices_policies s d r) Insert) by discriminate.
    reflexivity.
  - intros k set. unfold session_exec, guarded_update.
    destruct (find _ (prices d)) as [old |]; [| reflexivity].
    rewrite (proj2 (prices_policies s d old) Update) by discriminate.
    reflexivity.
  - intros k. unfold session_exec, guarded_delete.
    destruct (find _ (prices d)) as [old |]; [| reflexivity].
    rewrite (proj2 (prices_policies s d old) Delete) by discriminate.
    reflexivity.
Qed.

(** X6.  No session writes [orders] or [order_items], not even its own:
    in every reachable state an insert is refused and an update or delete
    affects no row, for every role and every user. *)
Theorem orders_written_by_no_session (s : session) (d : db) :
  reachable d ->
  (forall r, session_exec s (InsertOrder r) d
             = Err (RowSecurityViolation "orders")) /\
  (forall k set, session_exec s (UpdateOrder k set) d = Ok d) /\
  (forall k, session_exec s (DeleteOrder k) d = Ok d) /\
  (forall r, session_exec s (InsertOrderItem r) d
             = Err (RowSecurityViolation "order_items")) /\
  (forall k set, session_exec s (UpdateOrderItem k set) d = Ok d) /\
  (forall k, session_exec s (DeleteOrderItem k) d = Ok d).
Proof.
  intros Hd. apply reachable_consistent in Hd.
  constraint_of Hd (UniqueViolation "orders_pkey").
  apply (distinct_NoDup _ String.eqb_eq) in C.
  split; [| split; [| split; [| split; [| split]]]].
  - intros r. reflexivity.
  - intros k set. unfold session_exec, guarded_update.
    destruct (find _ (orders d)) as [old |]; [| reflexivity].
    rewrite (orders_policies s d old Update) by discriminate. reflexivity.
  - intros k. unfold session_exec, guarded_delete.
    destruct (find _ (orders d)) as [old |]; [| reflexivity].
    rewrite (orders_policies s d old Delete) by discriminate. reflexivity.
  - intros r. reflexivity.
  - intros k set. unfold session_exec, guarded_update.
    destruct (find _ (order_items d)) as [old |]; [| reflexivity].
    rewrite (order_items_policies s d old Update C) by discriminate.
    reflexivity.
  - intros k. unfold session_exec, guarded_delete.
    destruct (find _ (order_items d)) as [old |]; [| reflexivity].
    rewrite (order_items_policies s d old Delete C) by discriminate.
    reflexivity.
Qed.

(** X7.  [order_statuses] and [order_changes] have no row-level security:
    a session of any role, the anonymous one included, reads every row, and
    its insert, its update of an existing row and its delete of an existing
    row are the statements of the storage layer. *)
Theorem status_and_change_tables_unguarded (s : session) (d : db) :
  select_order_statuses s d = Ok (order_statuses d) /\
  select_order_changes s d = Ok (order_changes d) /\
  (forall r, session_exec s (InsertOrderStatus r) d
             = exec (InsertOrderStatus r) d) /\
  (forall r, session_exec s (InsertOrderChange r) d
             = exec (InsertOrderChange r) d) /\
  (forall k set old,
     find (fun r => Z.eqb (OrderStatuses.id r) k) (order_statuses d)
       = Some old ->
     session_exec s (UpdateOrderStatus k set) d
       = exec (UpdateOrderStatus k set) d /\
     session_exec s (DeleteOrderStatus k) d = exec (DeleteOrderStatus k) d)
  /\
  (forall k set old,
     find (fun r => String.eqb (OrderChanges.id r) k) (order_changes d)
       = Some old ->
     session_exec s (UpdateOrderChange k set) d
       = exec (UpdateOrderChange k set) d /\
     session_exec s (DeleteOrderChange k) d = exec (DeleteOrderChange k) d).
Proof.
  split; [| split; [| split; [| split; [| split]]]].
  - now apply select_rows_all.
  - now apply select_rows_all.
  - intros r. reflexivity.
  - intros r. reflexivity.
  - intros k set old Hfind. unfold session_exec, guarded_update,
      guarded_delete. rewrite Hfind. split; reflexivity.
  - intros k set old Hfind. unfold session_exec, guarded_update,
      guarded_delete. rewrite Hfind. split; reflexivity.
Qed.

Lemma rejected_unchanged (st : stmt) (d : db) :
  (exists e, exec st d = Err e) ->
  (exists e, exec st d = Err e) /\ state_after st d = d.
Proof.
  intros Hrej. split; [exact Hrej |].
  destruct Hrej as [e He]. unfold state_after. now rewrite He.
Qed.

(** X8.  Whenever an existing product is deleted, exactly the variants
    that name it are deleted with it; every other variant, every other
    product and every other table are left as they were.  The delete goes
    through as soon as no product change names the product and no price,
    order item or product change names one of its variants. *)
Theorem delete_product_cascades (d : db) (k : Z) :
  reachable d ->
  In k (map Products.id (products d)) ->
  (forall d',
     exec (DeleteProduct k) d = Ok d' ->
     products d' =
       filter (fun p => negb (Z.eqb (Products.id p) k)) (products d) /\
     product_variants d' =
       filter
         (fun v => negb (opt_text_is (product_key k)
                           (ProductVariants.product_id v)))
         (product_variants d) /\
     (forall v, In v (product_variants d') <->
                In v (product_variants d) /\
                ProductVariants.product_id v <> Some (product_key k)) /\
     auth_users d' = auth_users d /\ users d' = users d /\
     customers d' = customers d /\ sizes d' = sizes d /\
     colors d' = colors d /\ product_changes d' = product_changes d /\
     prices d' = prices d /\ order_statuses d' = order_statuses d /\
     orders d' = orders d /\ order_items d' = order_items d /\
     order_changes d' = order_changes d) /\
  ((forall c, In c (product_changes d) ->
              ProductChanges.product_id c <> Some (product_key k)) ->
   (forall v, In v (product_variants d) ->
      ProductVariants.product_id v = Some (product_key k) ->
      (forall p, In p (prices d) ->
         Prices.product_variant_id p <> Some (ProductVariants.id v)) /\
      (forall i, In i (order_items d) ->
         OrderItems.product_variant_id i <> Some (ProductVariants.id v)) /\
      (forall c, In c (product_changes d) ->
         ProductChanges.product_variant_id c
           <> Some (ProductVariants.id v))) ->
   exists d', exec (DeleteProduct k) d = Ok d').
Proof.
  intros Hd _. apply reachable_consistent in Hd.
  assert (Hkept : forall v,
            In v (delete_where
                    (fun v => opt_text_is (product_key k)
                                (ProductVariants.product_id v))
                    (product_variants d)) <->
            In v (product_variants d) /\
            ProductVariants.product_id v <> Some (product_key k)).
  { intros v. unfold delete_where. rewrite filter_In, negb_true_iff.
    rewrite <- opt_text_is_eq.
    destruct (opt_text_is (product_key k) (ProductVariants.product_id v));
      intuition congruence. }
  split.
  - intros d'. simpl. intros Hex. apply commit_Ok in Hex.
    destruct Hex as [-> _]. simpl.
    split; [reflexivity |]. split; [reflexivity |].
    split; [exact Hkept | repeat split].
  - intros Hlog Hfree. eexists. simpl. apply commit_Ok.
    split; [reflexivity |].
    assert (Hvariant : forall v,
              In v (product_variants d) ->
              negb (opt_text_is (product_key k)
                      (ProductVariants.product_id v)) = false ->
              ProductVariants.product_id v = Some (product_key k)).
    { intros v _ Hv. apply negb_false_iff in Hv.
      now apply opt_text_is_eq. }
    consistent_by Hd.
    all: try (unfold delete_where;
              first [apply references_filter | apply forallb_filter];
              exact C).
    all: try (unfold delete_where;
              first [apply (distinct_NoDup _ String.eqb_eq)
                    | apply (distinct_NoDup _ Z.eqb_eq)];
              apply NoDup_map_filter;
              first [apply (distinct_NoDup _ String.eqb_eq)
                    | apply (distinct_NoDup _ Z.eqb_eq)];
              exact C).
    + (* product_variants.product_id references products *)
      unfold delete_where.
      apply (references_restrict _ _ (fun p => product_key (Products.id p))
               _ _ _ _ String.eqb_eq C).
      * intros v Hv. apply filter_In in Hv. tauto.
      * intros v p Hv _ Href. apply (Hkept v) in Hv. destruct Hv as [_ Hv].
        apply negb_true_iff. apply Z.eqb_neq. intros Hp. apply Hv.
        now rewrite Href, Hp.
    + (* unique (product_id, size_id, color_id) *)
      unfold delete_where.
      apply (distinct_NoDup _ triple_eqb_eq). apply NoDup_non_null_filter.
      now apply (distinct_NoDup _ triple_eqb_eq).
    + (* product_changes.product_id references products *)
      unfold delete_where.
      apply (references_restrict _ _ (fun p => product_key (Products.id p))
               _ _ _ _ String.eqb_eq C).
      * auto.
      * intros c p Hc _ Href. apply negb_true_iff. apply Z.eqb_neq.
        intros Hp. apply (Hlog c Hc). now rewrite Href, Hp.
    + (* product_changes.product_variant_id references product_variants *)
      unfold delete_where.
      apply (references_restrict _ _ ProductVariants.id _ _ _ _
               String.eqb_eq C); [auto |].
      intros c v Hc Hv Href.
      destruct (negb _) eqn:Hgone; [reflexivity | exfalso].
      exact (proj2 (proj2 (Hfree v Hv (Hvariant v Hv Hgone))) c Hc Href).
    + (* prices.product_variant_id references product_variants *)
      unfold delete_where.
      apply (references_restrict _ _ ProductVariants.id _ _ _ _
               String.eqb_eq C); [auto |].
      intros p v Hp Hv Href.
      destruct (negb _) eqn:Hgone; [reflexivity | exfalso].
      exact (proj1 (Hfree v Hv (Hvariant v Hv Hgone)) p Hp Href).
    + (* order_items.product_variant_id references product_variants *)
      unfold delete_where.
      apply (references_restrict _ _ ProductVariants.id _ _ _ _
               String.eqb_eq C); [auto |].
      intros i v Hi Hv Href.
      destruct (negb _) eqn:Hgone; [reflexivity | exfalso].
      exact (proj1 (proj2 (Hfree v Hv (Hvariant v Hv Hgone))) i Hi Href).
Qed.

(** X9.  The size and the color of a variant exist: in every reachable
    state each variant row refers to a row of [sizes] and to a row of
    [colors]; a variant of an unknown size or color is rejected, and so is
    the deletion of a size or color that a variant has.  A rejected
    statement leaves the state as it was. *)
Theorem variant_size_and_color_exist (d : db) :
  reachable d ->
  (forall v, In v (product_variants d) ->
     In (ProductVariants.size_id v) (map Sizes.id (sizes d)) /\
     In (ProductVariants.color_id v) (map Colors.id (colors d))) /\
  (forall r,
     ~ In (ProductVariants.size_id r) (map Sizes.id (sizes d)) \/
     ~ In (ProductVariants.color_id r) (map Colors.id (colors d)) ->
     (exists e, exec (InsertProductVariant r) d = Err e) /\
     state_after (InsertProductVariant r) d = d) /\
  (forall v, In v (product_variants d) ->
     ((exists e, exec (DeleteSize (ProductVariants.size_id v)) d = Err e) /\
      state_after (DeleteSize (ProductVariants.size_id v)) d = d) /\
     ((exists e, exec (DeleteColor (ProductVariants.color_id v)) d = Err e)
      /\ state_after (DeleteColor (ProductVariants.color_id v)) d = d)).
Proof.
  intros Hd. apply reachable_consistent in Hd.
  split; [| split].
  - intros v Hv. split.
    + constraint_of Hd (ForeignKeyViolation "product_variants_size_id_fkey").
      rewrite (references_spec _ Z.eqb_eq) in C. now apply (C v).
    + constraint_of Hd (ForeignKeyViolation "product_variants_color_id_fkey").
      rewrite (references_spec _ Z.eqb_eq) in C. now apply (C v).
  - intros r Hr. apply rejected_unchanged. simpl. apply commit_Err.
    match goal with |- consistent ?d' = false =>
      destruct (consistent d') eqn:Hc; [exfalso | reflexivity] end.
    destruct Hr as [Hr | Hr]; apply Hr.
    + constraint_of Hc (ForeignKeyViolation "product_variants_size_id_fkey").
      simpl in C. rewrite (references_spec _ Z.eqb_eq) in C.
      apply (C r); [apply in_or_app; right; simpl; auto | reflexivity].
    + constraint_of Hc (ForeignKeyViolation "product_variants_color_id_fkey").
      simpl in C. rewrite (references_spec _ Z.eqb_eq) in C.
      apply (C r); [apply in_or_app; right; simpl; auto | reflexivity].
  - intros v Hv. split; apply rejected_unchanged; simpl; apply commit_Err;
      match goal with |- consistent ?d' = false =>
        destruct (consistent d') eqn:Hc; [exfalso | reflexivity] end.
    + constraint_of Hc (ForeignKeyViolation "product_variants_size_id_fkey").
      simpl in C. rewrite (references_spec _ Z.eqb_eq) in C.
      specialize (C v _ Hv eq_refl). apply in_map_iff in C.
      destruct C as [x [Hx Hin]]. apply filter_In in Hin.
      destruct Hin as [_ Hin]. apply negb_true_iff, Z.eqb_neq in Hin.
      contradiction.
    + constraint_of Hc (ForeignKeyViolation "product_variants_color_id_fkey").
      simpl in C. rewrite (references_spec _ Z.eqb_eq) in C.
      specialize (C v _ Hv eq_refl). apply in_map_iff in C.
      destruct C as [x [Hx Hin]]. apply filter_In in Hin.
      destruct Hin as [_ Hin]. apply negb_true_iff, Z.eqb_neq in Hin.
      contradiction.
Qed.

(** X10.  Names of sizes and of colors are unique: in every reachable
    state two rows of [sizes] (of [colors]) with the same name are the same
    row, and an insert under a name that is taken is rejected and leaves
    the state as it was. *)
Theorem size_and_color_names_unique (d : db) :
  reachable d ->
  (forall a b, In a (sizes d) -> In b (sizes d) ->
     Sizes.name a = Sizes.name b -> a = b) /\
  (forall a b, In a (colors d) -> In b (colors d) ->
     Colors.name a = Colors.name b -> a = b) /\
  (forall r a, In a (sizes d) -> Sizes.name r = Sizes.name a ->
     (exists e, exec (InsertSize r) d = Err e) /\
     state_after (InsertSize r) d = d) /\
  (forall r a, In a (colors d) -> Colors.name r = Colors.name a ->
     (exists e, exec (InsertColor r) d = Err e) /\
     state_after (InsertColor r) d = d).
Proof.
  intros Hd. apply reachable_consistent in Hd.
  split; [| split; [| split]].
  - intros a b Ha Hb Hname.
    constraint_of Hd (UniqueViolation "sizes_name_key").
    apply (distinct_NoDup _ String.eqb_eq) in C.
    exact (NoDup_map_key Sizes.name (sizes d) a b C Ha Hb Hname).
  - intros a b Ha Hb Hname.
    constraint_of Hd (UniqueViolation "colors_name_key").
    apply (distinct_NoDup _ String.eqb_eq) in C.
    exact (NoDup_map_key Colors.name (colors d) a b C Ha Hb Hname).
  - intros r a Ha Hname. apply rejected_unchanged. simpl. apply commit_Err.
    match goal with |- consistent ?d' = false =>
      destruct (consistent d') eqn:Hc; [exfalso | reflexivity] end.
    constraint_of Hc (UniqueViolation "sizes_name_key").
    simpl in C. apply (distinct_NoDup _ String.eqb_eq) in C.
    rewrite map_app in C. simpl in C. apply NoDup_remove_2 in C. apply C.
    rewrite app_nil_r, Hname. now apply in_map.
  - intros r a Ha Hname. apply rejected_unchanged. simpl. apply commit_Err.
    match goal with |- consistent ?d' = false =>
      destruct (consistent d') eqn:Hc; [exfalso | reflexivity] end.
    constraint_of Hc (UniqueViolation "colors_name_key").
    simpl in C. apply (distinct_NoDup _ String.eqb_eq) in C.
    rewrite map_app in C. simpl in C. apply NoDup_remove_2 in C. apply C.
    rewrite app_nil_r, Hname. now apply in_map.
Qed.

(** X11.  Profiles, customer mappings and orders belong to identities that
    exist: in every reachable state the [id] of each [users] and
    [customers] row and the [user_id] of each order is in [auth.users], and
    deleting an identity that still has a profile, a customer mapping or an
    order is rejected and leaves the state as it was. *)
Theorem identities_outlive_their_rows (d : db) :
  reachable d ->
  (forall u, In u (users d) ->
     In (Users.id u) (map AuthUsers.id (auth_users d))) /\
  (forall c, In c (customers d) ->
     In (Customers.id c) (map AuthUsers.id (auth_users d))) /\
  (forall o, In o (orders d) ->
     In (Orders.user_id o) (map AuthUsers.id (auth_users d))) /\
  (forall k,
     In k (map Users.id (users d)) \/
     In k (map Customers.id (customers d)) \/
     In k (map Orders.user_id (orders d)) ->
     (exists e, exec (DeleteAuthUser k) d = Err e) /\
     state_after (DeleteAuthUser k) d = d).
Proof.
  intros Hd. apply reachable_consistent in Hd.
  split; [| split; [| split]].
  - intros u Hu. constraint_of Hd (ForeignKeyViolation "users_id_fkey").
    rewrite (references_spec _ String.eqb_eq) in C. now apply (C u).
  - intros c Hc. constraint_of Hd (ForeignKeyViolation "customers_id_fkey").
    rewrite (references_spec _ String.eqb_eq) in C. now apply (C c).
  - intros o Ho. constraint_of Hd (ForeignKeyViolation "orders_user_id_fkey").
    rewrite (references_spec _ String.eqb_eq) in C. now apply (C o).
  - intros k Hk. apply rejected_unchanged. simpl. apply commit_Err.
    match goal with |- consistent ?d' = false =>
      destruct (consistent d') eqn:Hc; [exfalso | reflexivity] end.
    assert (Hgone : ~ In k (map AuthUsers.id
                              (delete_where
                                 (fun r => String.eqb (AuthUsers.id r) k)
                                 (auth_users d)))).
    { intros Hin. apply in_map_iff in Hin. destruct Hin as [x [Hx Hin]].
      apply filter_In in Hin. destruct Hin as [_ Hin].
      apply negb_true_iff, String.eqb_neq in Hin. contradiction. }
    apply Hgone. destruct Hk as [Hk | [Hk | Hk]];
      apply in_map_iff in Hk; destruct Hk as [x [Hx Hin]].
    + constraint_of Hc (ForeignKeyViolation "users_id_fkey").
      simpl in C. rewrite (references_spec _ String.eqb_eq) in C.
      apply (C x); [exact Hin | now rewrite Hx].
    + constraint_of Hc (ForeignKeyViolation "customers_id_fkey").
      simpl in C. rewrite (references_spec _ String.eqb_eq) in C.
      apply (C x); [exact Hin | now rewrite Hx].
    + constraint_of Hc (ForeignKeyViolation "orders_user_id_fkey").
      simpl in C. rewrite (references_spec _ String.eqb_eq) in C.
      apply (C x); [exact Hin | now rewrite Hx].
Qed.

(** X12.  An order item of an order has that order: in every reachable
    state an order item whose [order_id] is not NULL has exactly its parent
    order in [orders], which gives it its owner; an order item that names
    an order that is not there is rejected and leaves the state as it
    was. *)
Theorem order_item_has_parent_order (d : db) :
  reachable d ->
  (forall i k, In i (order_items d) -> OrderItems.order_id i = Some k ->
     exists o,
       In o (orders d) /\ Orders.id o = k /\
       parent_order d i = Some o /\
       order_item_owner d i = Some (Orders.user_id o)) /\
  (forall r k, OrderItems.order_id r = Some k ->
     ~ In k (map Orders.id (orders d)) ->
     (exists e, exec (InsertOrderItem r) d = Err e) /\
     state_after (InsertOrderItem r) d = d).
Proof.
  intros Hd. apply reachable_consistent in Hd. split.
  - intros i k Hi Hk.
    constraint_of Hd (ForeignKeyViolation "fk_order_items_order_id").
    rewrite (references_spec _ String.eqb_eq) in C.
    specialize (C i k Hi Hk). apply in_map_iff in C.
    destruct C as [o [Ho Hin]].
    unfold order_item_owner, parent_order. rewrite Hk.
    destruct (find (fun o => String.eqb (Orders.id o) k) (orders d))
      as [o' |] eqn:Hfind.
    + destruct (find_key_eq Orders.id k (orders d) o' Hfind) as [Hin' Hk'].
      exists o'. repeat split; assumption.
    + exfalso. pose proof (find_none _ _ Hfind o Hin) as Hno.
      simpl in Hno. rewrite Ho, String.eqb_refl in Hno. discriminate.
  - intros r k Hk Hmissing. apply rejected_unchanged. simpl.
    apply commit_Err.
    match goal with |- consistent ?d' = false =>
      destruct (consistent d') eqn:Hc; [exfalso | reflexivity] end.
    constraint_of Hc (ForeignKeyViolation "fk_order_items_order_id").
    simpl in C. rewrite (references_spec _ String.eqb_eq) in C.
    apply Hmissing. apply (C r); [apply in_or_app; right; simpl; auto |].
    exact Hk.
Qed.

(** X13.  Nothing refers to [order_statuses]: in every reachable state the
    deletion of a status name goes through, whether or not orders carry
    that status, and leaves the orders and every other table as they
    were. *)
Theorem order_statuses_not_referenced (d : db) (k : Z) :
  reachable d ->
  exists d',
    exec (DeleteOrderStatus k) d = Ok d' /\
    order_statuses d' =
      filter (fun r => negb (Z.eqb (OrderStatuses.id r) k))
        (order_statuses d) /\
    orders d' = orders d /\ order_items d' = order_items d /\
    order_changes d' = order_changes d /\
    auth_users d' = auth_users d /\ users d' = users d /\
    customers d' = customers d /\ sizes d' = sizes d /\
    colors d' = colors d /\ products d' = products d /\
    product_variants d' = product_variants d /\
    product_changes d' = product_changes d /\ prices d' = prices d.
Proof.
  intros Hd. apply reachable_consistent in Hd.
  eexists. split.
  - simpl. apply commit_Ok. split; [reflexivity |].
    consistent_by Hd.
    + unfold delete_where. apply (distinct_NoDup _ Z.eqb_eq).
      apply NoDup_map_filter. now apply (distinct_NoDup _ Z.eqb_eq).
    + unfold delete_where. apply (distinct_NoDup _ String.eqb_eq).
      apply NoDup_map_filter. now apply (distinct_NoDup _ String.eqb_eq).
  - simpl. repeat split.
Qed.

(** X14.  A product whose variant is still priced, ordered or logged
    cannot be deleted: in every reachable state, when a price, an order item
    or a product change refers to a variant that names the product, the
    delete is rejected and nothing is removed, neither the product nor any
    of its variants. *)
Theorem delete_product_blocked (d : db) (k : Z) (v : ProductVariants.row) :
  reachable d ->
  In v (product_variants d) ->
  ProductVariants.product_id v = Some (product_key k) ->
  (exists p, In p (prices d) /\
     Prices.product_variant_id p = Some (ProductVariants.id v)) \/
  (exists i, In i (order_items d) /\
     OrderItems.product_variant_id i = Some (ProductVariants.id v)) \/
  (exists c, In c (product_changes d) /\
     ProductChanges.product_variant_id c = Some (ProductVariants.id v)) ->
  (exists e, exec (DeleteProduct k) d = Err e) /\
  state_after (DeleteProduct k) d = d.
Proof.
  intros Hd Hv Hprod Href. apply reachable_consistent in Hd.
  constraint_of Hd (UniqueViolation "product_variants_pkey").
  apply (distinct_NoDup _ String.eqb_eq) in C. rename C into Hpk.
  assert (Hgone : ~ In (ProductVariants.id v)
            (map ProductVariants.id
               (delete_where
                  (fun v => opt_text_is (product_key k)
                              (ProductVariants.product_id v))
                  (product_variants d)))).
  { intros Hin. apply in_map_iff in Hin.
    destruct Hin as [x [Hx Hin]]. apply filter_In in Hin.
    destruct Hin as [Hxin Hkept]. apply negb_true_iff in Hkept.
    assert (Hsame : x = v)
      by exact (NoDup_map_key ProductVariants.id _ x v Hpk Hxin Hv Hx).
    subst x. rewrite (proj2 (opt_text_is_eq _ _) Hprod) in Hkept.
    discriminate. }
  apply rejected_unchanged. simpl. apply commit_Err.
  match goal with |- consistent ?d' = false =>
    destruct (consistent d') eqn:Hc; [exfalso | reflexivity] end.
  apply Hgone. destruct Href as [[p [Hp Href]] | [[i [Hi Href]] |
                                 [c [Hcin Href]]]].
  - constraint_of Hc (ForeignKeyViolation "prices_product_variant_id_fkey").
    simpl in C. rewrite (references_spec _ String.eqb_eq) in C.
    exact (C p _ Hp Href).
  - constraint_of Hc
      (ForeignKeyViolation "order_items_product_variant_id_fkey").
    simpl in C. rewrite (references_spec _ String.eqb_eq) in C.
    exact (C i _ Hi Href).
  - constraint_of Hc
      (ForeignKeyViolation "product_changes_product_variant_id_fkey").
    simpl in C. rewrite (references_spec _ String.eqb_eq) in C.
    exact (C c _ Hcin Href).
Qed.

(** X15.  Stock on insert: a variant inserted with a negative quantity is
    rejected and leaves the state as it was; a variant inserted without
    naming its quantity is stored, when it is accepted, as the last row of
    the table with a quantity of 0. *)
Theorem variant_insert_quantity (d : db) :
  (forall r q, ProductVariants.quantity r = Some q -> q < 0 ->
     (exists e, exec (InsertProductVariant r) d = Err e) /\
     state_after (InsertProductVariant r) d = d) /\
  (forall now id product_id size_id color_id created_at images metadata d',
     exec (InsertProductVariant
             (new_product_variant now id product_id size_id color_id Default
                created_at images metadata)) d = Ok d' ->
     exists v,
       product_variants d' = (product_variants d ++ [v])%list /\
       ProductVariants.id v = id /\
       ProductVariants.quantity v = Some 0).
Proof.
  split.
  - intros r q Hq Hneg. apply rejected_unchanged. simpl. apply commit_Err.
    match goal with |- consistent ?d' = false =>
      destruct (consistent d') eqn:Hc; [exfalso | reflexivity] end.
    constraint_of Hc (CheckViolation "check_quantity_non_negative").
    simpl in C. rewrite forallb_app in C. simpl in C.
    rewrite andb_true_r, andb_true_iff in C. destruct C as [_ C].
    pose proof (proj1 (quantity_check_spec _) C q Hq). lia.
  - intros now id product_id size_id color_id created_at images metadata d'.
    simpl. intros Hex. apply commit_Ok in Hex. destruct Hex as [-> _].
    eexists. simpl. repeat split.
Qed.

(** X16.  Order and order-item identifiers are primary keys: in every
    reachable state two orders (two order items) with the same [id] are the
    same row, and an insert under an [id] that is taken is rejected and
    leaves the state as it was. *)
Theorem order_ids_unique (d : db) :
  reachable d ->
  (forall a b, In a (orders d) -> In b (orders d) ->
     Orders.id a = Orders.id b -> a = b) /\
  (forall a b, In a (order_items d) -> In b (order_items d) ->
     OrderItems.id a = OrderItems.id b -> a = b) /\
  (forall r a, In a (orders d) -> Orders.id r = Orders.id a ->
     (exists e, exec (InsertOrder r) d = Err e) /\
     state_after (InsertOrder r) d = d) /\
  (forall r a, In a (order_items d) -> OrderItems.id r = OrderItems.id a ->
     (exists e, exec (InsertOrderItem r) d = Err e) /\
     state_after (InsertOrderItem r) d = d).
Proof.
  intros Hd. apply reachable_consistent in Hd.
  split; [| split; [| split]].
  - intros a b Ha Hb Hid.
    constraint_of Hd (UniqueViolation "orders_pkey").
    apply (distinct_NoDup _ String.eqb_eq) in C.
    exact (NoDup_map_key Orders.id (orders d) a b C Ha Hb Hid).
  - intros a b Ha Hb Hid.
    constraint_of Hd (UniqueViolation "order_items_pkey").
    apply (distinct_NoDup _ String.eqb_eq) in C.
    exact (NoDup_map_key OrderItems.id (order_items d) a b C Ha Hb Hid).
  - intros r a Ha Hid. apply rejected_unchanged. simpl. apply commit_Err.
    match goal with |- consistent ?d' = false =>
      destruct (consistent d') eqn:Hc; [exfalso | reflexivity] end.
    constraint_of Hc (UniqueViolation "orders_pkey").
    simpl in C. apply (distinct_NoDup _ String.eqb_eq) in C.
    rewrite map_app in C. simpl in C. apply NoDup_remove_2 in C. apply C.
    rewrite app_nil_r, Hid. now apply in_map.
  - intros r a Ha Hid. apply rejected_unchanged. simpl. apply commit_Err.
    match goal with |- consistent ?d' = false =>
      destruct (consistent d') eqn:Hc; [exfalso | reflexivity] end.
    constraint_of Hc (UniqueViolation "order_items_pkey").
    simpl in C. apply (distinct_NoDup _ String.eqb_eq) in C.
    rewrite map_app in C. simpl in C. apply NoDup_remove_2 in C. apply C.
    rewrite app_nil_r, Hid. now apply in_map.
Qed.

(** X17.  An order with a change record cannot be deleted: when an
    order-change row refers to the order, the delete is rejected and
    nothing is removed, neither the order nor any of its items. *)
Theorem delete_order_blocked (d : db) (k : text) (c : OrderChanges.row) :
  In c (order_changes d) ->
  OrderChanges.order_id c = Some k ->
  (exists e, exec (DeleteOrder k) d = Err e) /\
  state_after (DeleteOrder k) d = d.
Proof.
  intros Hc Hk. apply rejected_unchanged. unfold exec.
  destruct (existsb (fun r => String.eqb (Orders.id r) k) (orders d))
    eqn:Horder;
    [destruct (existsb (fun i => opt_text_is k (OrderItems.order_id i))
                 (order_items d)); [eexists; reflexivity |] |];
    apply commit_Err;
    match goal with |- consistent ?d' = false =>
      destruct (consistent d') eqn:Hcons; [exfalso | reflexivity] end;
    constraint_of Hcons (ForeignKeyViolation "order_changes_order_id_fkey");
    cbn [orders order_changes set_orders set_order_items] in C;
    rewrite (references_spec _ String.eqb_eq) in C;
    specialize (C c k Hc Hk); apply in_map_iff in C;
    destruct C as [o [Ho Hin]].
  - apply filter_In in Hin. destruct Hin as [_ Hin].
    apply negb_true_iff, String.eqb_neq in Hin. contradiction.
  - pose proof (existsb_none _ _ Horder o Hin) as Hno. simpl in Hno.
    rewrite Ho, String.eqb_refl in Hno. discriminate.
Qed.

End MoreProperties.

(** * Scenarios *)

#[local] Existing Instance scenario_engine.

Lemma tee_db_reachable : reachable (scenario_db tee_catalog).
Proof.
  apply (run_reachable tee_catalog schema_init); [constructor |].
  vm_compute. reflexivity.
Defined.

Lemma loose_db_reachable : reachable (scenario_db loose_catalog).
Proof.
  apply (run_reachable loose_catalog schema_init); [constructor |].
  vm_compute. reflexivity.
Defined.

(** C1, the claim as stated fails: a variant inserted with its quantity set
    to NULL passes both checks, and its quantity is not a number at or above
    zero. *)
Lemma variant_quantity_may_be_null :
  ~ (forall d : db,
       reachable d ->
       forall v, In v (product_variants d) ->
       exists q, ProductVariants.quantity v = Some q /\ 0 <= q).
Proof.
  intros H.
  destruct (H (scenario_db loose_catalog) loose_db_reachable
              (loose_variant "prod_1")) as [q [Hq _]].
  - vm_compute. auto.
  - discriminate Hq.
Qed.

(** Scenario of C1: on the Tee variant with ten pieces, setting the quantity
    to -1 fails and the state stays as it was. *)
Lemma variant_quantity_witness :
  reachable (scenario_db tee_catalog) /\
  (exists e,
     exec (UpdateProductVariant "prod_1" (set_quantity (Some (-1))))
       (scenario_db tee_catalog) = Err e) /\
  state_after (UpdateProductVariant "prod_1" (set_quantity (Some (-1))))
    (scenario_db tee_catalog) = scenario_db tee_catalog.
Proof.
  split; [exact tee_db_reachable |].
  apply (proj2 (variant_quantity_null_or_non_negative
                  (scenario_db tee_catalog) tee_db_reachable)
           "prod_1" (set_quantity (Some (-1)))
           (new_product_variant 0 "prod_1" (Some "1") 1 1 (Value (Some 10))
              Default None None) (-1)).
  - vm_compute. auto.
  - reflexivity.
  - reflexivity.
  - lia.
Defined.

(** C2, the claim as stated fails: two variants that name no product are
    both accepted with the same size and color, so two distinct rows share
    their triple. *)
Lemma variant_triple_shared_when_product_null :
  ~ (forall d : db,
       reachable d ->
       forall v w,
         In v (product_variants d) -> In w (product_variants d) -> v <> w ->
         variant_triple v <> variant_triple w).
Proof.
  intros H.
  apply (H (scenario_db loose_catalog) loose_db_reachable
           (loose_variant "prod_1") (loose_variant "prod_2")).
  - vm_compute. auto.
  - vm_compute. auto.
  - discriminate.
  - reflexivity.
Qed.

(** Scenario of C2: a second variant of the Tee in Small and Red is
    rejected. *)
Lemma variant_triple_witness :
  reachable (scenario_db tee_catalog) /\
  (exists e,
     exec (InsertProductVariant
             (new_product_variant 0 "prod_2" (Some "1") 1 1 Default Default
                None None))
       (scenario_db tee_catalog) = Err e) /\
  state_after
    (InsertProductVariant
       (new_product_variant 0 "prod_2" (Some "1") 1 1 Default Default None
          None))
    (scenario_db tee_catalog) = scenario_db tee_catalog.
Proof.
  split; [exact tee_db_reachable |].
  apply (proj2 (variant_triple_unique_when_product_named
                  (scenario_db tee_catalog) tee_db_reachable)
           (new_product_variant 0 "prod_2" (Some "1") 1 1 Default Default
              None None)
           (new_product_variant 0 "prod_1" (Some "1") 1 1 (Value (Some 10))
              Default None None)).
  - vm_compute. auto.
  - discriminate.
  - reflexivity.
Defined.

(** Scenario of C3: when u1 registers with full_name = Ada on the fresh
    database, a profile row with id u1 and full_name Ada is there and its
    avatar_url is NULL. *)
Lemma registration_witness :
  reachable schema_init /\
  ~ In (AuthUsers.id ada) (map AuthUsers.id (auth_users schema_init)) /\
  exists d' p,
    exec (Register ada) schema_init = Ok d' /\
    filter (fun u => String.eqb (Users.id u) "u1") (users d') = [p] /\
    Users.id p = "u1" /\
    Users.full_name p = Some "Ada" /\
    Users.avatar_url p = None.
Proof.
  assert (Hfresh : ~ In (AuthUsers.id ada)
                     (map AuthUsers.id (auth_users schema_init))).
  { simpl. tauto. }
  split; [constructor | split; [exact Hfresh |]].
  destruct (registration_creates_one_profile schema_init ada
              (reachable_init) Hfresh)
    as [d' [p [Hex [Hone [Hid [Hname [_ [_ Havatar]]]]]]]].
  exists d', p. repeat split; try assumption.
  - exact (Hname (JString "Ada") eq_refl).
  - exact (Havatar eq_refl).
Defined.

Lemma order_db_reachable : reachable (scenario_db order_book).
Proof.
  apply (run_reachable order_book schema_init); [constructor |].
  vm_compute. reflexivity.
Defined.

(** Scenario of C8: order_1 has item_1 and item_2; its deletion is rejected
    by the inline key of [order_items.order_id] and removes nothing. *)
Lemma delete_order_never_cascades_witness :
  reachable (scenario_db order_book) /\
  In item_1 (order_items (scenario_db order_book)) /\
  OrderItems.order_id item_1 = Some "order_1" /\
  exec (DeleteOrder "order_1") (scenario_db order_book)
    = Err (ForeignKeyViolation "order_items_order_id_fkey") /\
  state_after (DeleteOrder "order_1") (scenario_db order_book)
    = scenario_db order_book.
Proof.
  assert (Hitem : In item_1 (order_items (scenario_db order_book))).
  { vm_compute. auto. }
  split; [exact order_db_reachable | split; [exact Hitem | split;
    [reflexivity |]]].
  exact (proj1 (delete_order_never_cascades (scenario_db order_book)
                  "order_1" order_db_reachable)
           item_1 Hitem eq_refl).
Defined.

(** Scenario of C7: an anonymous session reads the Tee variant and cannot
    add a size; the session of [admin] adds it. *)
Lemma public_tables_witness :
  select_product_variants (mkSession "anon" None) (scenario_db tee_catalog)
    = Ok [tee_variant] /\
  session_exec (mkSession "anon" None)
    (InsertSize (Sizes.mk 2 "Large" "Shirt" "US")) (scenario_db tee_catalog)
    = Err (RowSecurityViolation "sizes") /\
  exists d',
    session_exec (mkSession "admin" None)
      (InsertSize (Sizes.mk 2 "Large" "Shirt" "US"))
      (scenario_db tee_catalog) = Ok d' /\
    map Sizes.name (sizes d') = ["Small"; "Large"].
Proof.
  destruct (public_tables_read_by_all_written_by_admin
              (mkSession "anon" None) (scenario_db tee_catalog))
    as [[_ [_ [_ Hread]]] [[Hanon _] _]].
  destruct (public_tables_read_by_all_written_by_admin
              (mkSession "admin" None) (scenario_db tee_catalog))
    as [_ [[Hadmin _] [_ [_ Heffect]]]].
  split; [| split].
  - rewrite Hread. vm_compute. reflexivity.
  - rewrite Hanon. reflexivity.
  - assert (Hex : exists d',
              session_exec (mkSession "admin" None)
                (InsertSize (Sizes.mk 2 "Large" "Shirt" "US"))
                (scenario_db tee_catalog) = Ok d').
    { rewrite Hadmin. eexists. vm_compute. reflexivity. }
    destruct Hex as [d' Hex]. exists d'. split; [exact Hex |].
    rewrite (proj1 (Heffect eq_refl) _ d' Hex). vm_compute. reflexivity.
Defined.

(** Scenario of C4: u2 asks for the order items of order_1, which belongs to
    u1, and gets no row; u2 reads its own order_2 and item_3. *)
Lemma own_orders_witness :
  reachable (scenario_db order_book) /\
  auth_uid (mkSession "authenticated" (Some "u2")) = Some "u2" /\
  query order_items_security (mkSession "authenticated" (Some "u2"))
    (scenario_db order_book) (order_items (scenario_db order_book))
    (fun i => opt_text_is "order_1" (OrderItems.order_id i)) = Ok [] /\
  (exists rows,
     select_orders (mkSession "authenticated" (Some "u2"))
       (scenario_db order_book) = Ok rows /\
     map Orders.id rows = ["order_2"]) /\
  (exists rows,
     select_order_items (mkSession "authenticated" (Some "u2"))
       (scenario_db order_book) = Ok rows /\
     map OrderItems.id rows = ["item_3"]).
Proof.
  destruct (own_orders_only (scenario_db order_book)
              (mkSession "authenticated" (Some "u2")) "u2"
              order_db_reachable eq_refl)
    as [Horders [Hitems [_ Hquery]]].
  split; [exact order_db_reachable | split; [reflexivity | split;
    [| split]]].
  - apply Hquery. intros i Hi. apply opt_text_is_eq in Hi.
    unfold order_item_owner, parent_order. rewrite Hi. vm_compute.
    discriminate.
  - eexists. split; [exact Horders | vm_compute; reflexivity].
  - eexists. split; [exact Hitems | vm_compute; reflexivity].
Defined.

(** Scenario of C10: item_4 belongs to no order; u1 does not read it. *)
Lemma null_order_item_witness :
  reachable (scenario_db order_book) /\
  In (OrderItems.mk "item_4" None None (Some 1) (Some 100) (Some "usd") None)
    (order_items (scenario_db order_book)) /\
  exists rows,
    select_order_items (mkSession "authenticated" (Some "u1"))
      (scenario_db order_book) = Ok rows /\
    ~ In (OrderItems.mk "item_4" None None (Some 1) (Some 100) (Some "usd")
            None) rows.
Proof.
  split; [exact order_db_reachable | split].
  - vm_compute. auto 10.
  - exact (proj2 (proj2 (null_order_item_is_invisible
                           (scenario_db order_book)
                           (mkSession "authenticated" (Some "u1"))
                           (OrderItems.mk "item_4" None None (Some 1)
                              (Some 100) (Some "usd") None)
                           order_db_reachable eq_refl))).
Defined.

Lemma bare_db_reachable : reachable (scenario_db bare_book).
Proof.
  apply (run_reachable bare_book schema_init); [constructor |].
  vm_compute. reflexivity.
Defined.

(** C5, the claim as stated fails: a price whose currency is NULL is
    accepted, and NULL is not a code of exactly three characters. *)
Lemma currency_may_be_null :
  ~ (forall (st : stmt) (d d' : db),
       reachable d -> exec st d = Ok d' ->
       forall c, In c (written_currencies st d) ->
       exists code, c = Some code /\ String.length code = 3%nat).
Proof.
  intros H.
  assert (Hex : exec (InsertPrice (price_in None)) schema_init =
                Ok (scenario_db [InsertPrice (price_in None)])).
  { vm_compute. reflexivity. }
  destruct (H _ _ _ reachable_init Hex None (or_introl eq_refl))
    as [code [Hcode _]].
  discriminate Hcode.
Qed.

(** Scenario of C5: a price in usd is accepted; a price in US and an order
    item in USDX are rejected and leave the database as it was. *)
Lemma currency_witness :
  (exists d', exec (InsertPrice (price_in (Some "usd"))) schema_init = Ok d')
  /\
  (Some "usd" = None \/
   exists code, Some "usd" = Some code /\ String.length code = 3%nat) /\
  ((exists e, exec (InsertPrice (price_in (Some "US"))) schema_init = Err e)
   /\ state_after (InsertPrice (price_in (Some "US"))) schema_init
      = schema_init) /\
  ((exists e,
      exec (InsertOrderItem (item_in (Some "USDX"))) schema_init = Err e)
   /\ state_after (InsertOrderItem (item_in (Some "USDX"))) schema_init
      = schema_init).
Proof.
  assert (Hex : exec (InsertPrice (price_in (Some "usd"))) schema_init =
                Ok (scenario_db [InsertPrice (price_in (Some "usd"))])).
  { vm_compute. reflexivity. }
  split; [eexists; exact Hex | split; [| split]].
  - exact (proj1 (currency_null_or_three_characters
                    (InsertPrice (price_in (Some "usd"))) schema_init)
             _ (Some "usd") Hex (or_introl eq_refl)).
  - exact (proj2 (currency_null_or_three_characters
                    (InsertPrice (price_in (Some "US"))) schema_init)
             (or_introl (or_introl eq_refl))).
  - exact (proj2 (currency_null_or_three_characters
                    (InsertOrderItem (item_in (Some "USDX"))) schema_init)
             (or_intror (or_introl eq_refl))).
Defined.

(** C6, the claim as stated fails: an order recorded without status is
    accepted, and its status field holds no member of the enumeration. *)
Lemma order_status_may_be_null :
  ~ (forall d : db,
       reachable d ->
       forall o, In o (orders d) ->
       exists st, Orders.status o = Some st /\ In st order_status_labels).
Proof.
  intros H.
  destruct (H (scenario_db bare_book) bare_db_reachable bare_order)
    as [st [Hst _]].
  - vm_compute. auto.
  - discriminate Hst.
Qed.

(** Scenario of C6: the status created of order_1 is one of the thirteen
    states, and an order with the status lost is not accepted. *)
Lemma order_status_witness :
  reachable (scenario_db order_book) /\
  In "created" order_status_labels /\
  exists e,
    exec (InsertOrder
            (new_order 0 "order_9" "u1" (Some "lost") None None Default None))
      (scenario_db order_book) = Err e.
Proof.
  destruct (order_status_null_or_enumerated (scenario_db order_book)
              order_db_reachable)
    as [_ [_ [_ [_ [Hmember Hclosed]]]]].
  split; [exact order_db_reachable | split].
  - apply (Hmember
             (new_order 0 "order_1" "u1" (Some "created") (Some 2500)
                (Some "usd") Default None) "created").
    + vm_compute. auto.
    + reflexivity.
  - apply (Hclosed
             (new_order 0 "order_9" "u1" (Some "lost") None None Default None)
             "lost" eq_refl).
    vm_compute. intuition discriminate.
Defined.

(** The scenario of the catalog, read and written through the policies. *)
Example anyone_reads_the_catalog :
  select_product_variants (mkSession "anon" None) (scenario_db tee_catalog)
  = Ok (product_variants (scenario_db tee_catalog)).
Proof. vm_compute. reflexivity. Qed.

Example only_admin_adds_a_size :
  session_exec (mkSession "anon" None)
    (InsertSize (Sizes.mk 2 "Large" "Shirt" "US")) (scenario_db tee_catalog)
  = Err (RowSecurityViolation "sizes") /\
  session_exec (mkSession "admin" None)
    (InsertSize (Sizes.mk 2 "Large" "Shirt" "US")) (scenario_db tee_catalog)
  = exec (InsertSize (Sizes.mk 2 "Large" "Shirt" "US"))
      (scenario_db tee_catalog) /\
  exists d',
    exec (InsertSize (Sizes.mk 2 "Large" "Shirt" "US"))
      (scenario_db tee_catalog) = Ok d'.
Proof.
  split; [| split]; [vm_compute; reflexivity .. |].
  eexists. vm_compute. reflexivity.
Qed.

Example admin_cannot_log_a_product_change :
  session_exec (mkSession "admin" None)
    (InsertProductChange
       (new_product_change 0 "change_1" (Some "1") (Some "prod_1") None
          Default))
    (scenario_db tee_catalog)
  = Err (RowSecurityViolation "product_changes").
Proof. vm_compute. reflexivity. Qed.

(** An order with items and a logged change cannot be deleted: the inline
    key of [order_items.order_id] is the first to object. *)
Example logged_order_is_kept :
  exec (DeleteOrder "order_1")
    (scenario_db
       (order_book ++
        [ InsertOrderChange
            (new_order_change 0 "order_change_1" (Some "order_1")
               (Some "created") Default None) ]))
  = Err (ForeignKeyViolation "order_items_order_id_fkey").
Proof. vm_compute. reflexivity. Qed.

(** Scenario of X1: in the order book u2 reads the one profile of u2. *)
Lemma own_profile_witness :
  reachable (scenario_db order_book) /\
  exists rows,
    select_users (mkSession "authenticated" (Some "u2"))
      (scenario_db order_book) = Ok rows /\
    map Users.id rows = ["u2"].
Proof.
  split; [exact order_db_reachable |].
  destruct (own_profile_only (scenario_db order_book)
              (mkSession "authenticated" (Some "u2")) order_db_reachable)
    as [_ Hown].
  destruct (Hown "u2" eq_refl) as [Hrows _].
  eexists. split; [exact Hrows | vm_compute; reflexivity].
Defined.

(** Scenario of X2: Ada registers on the fresh database and reads her
    profile. *)
Lemma new_user_reads_own_profile_witness :
  reachable schema_init /\
  ~ In (AuthUsers.id ada) (map AuthUsers.id (auth_users schema_init)) /\
  exists d' p,
    exec (Register ada) schema_init = Ok d' /\
    select_users (mkSession "authenticated" (Some "u1")) d' = Ok [p] /\
    Users.full_name p = Some "Ada".
Proof.
  assert (Hfresh : ~ In (AuthUsers.id ada)
                     (map AuthUsers.id (auth_users schema_init))).
  { simpl. tauto. }
  split; [constructor | split; [exact Hfresh |]].
  destruct (new_user_reads_own_profile schema_init ada "authenticated"
              reachable_init Hfresh)
    as [d' [p [Hex [Hread [_ [Hname _]]]]]].
  exists d', p. repeat split; assumption.
Defined.

(** Scenario of X6: u1 can neither cancel nor delete its own order_1. *)
Lemma orders_written_by_no_session_witness :
  reachable (scenario_db order_book) /\
  session_exec (mkSession "authenticated" (Some "u1"))
    (DeleteOrder "order_1") (scenario_db order_book)
  = Ok (scenario_db order_book) /\
  session_exec (mkSession "authenticated" (Some "u1"))
    (DeleteOrderItem "item_1") (scenario_db order_book)
  = Ok (scenario_db order_book).
Proof.
  destruct (orders_written_by_no_session
              (mkSession "authenticated" (Some "u1"))
              (scenario_db order_book) order_db_reachable)
    as [_ [_ [Hdel [_ [_ Hdelitem]]]]].
  split; [exact order_db_reachable | split].
  - exact (Hdel "order_1").
  - exact (Hdelitem "item_1").
Defined.

Lemma priced_db_reachable : reachable (scenario_db priced_catalog).
Proof.
  apply (run_reachable priced_catalog schema_init); [constructor |].
  vm_compute. reflexivity.
Defined.

(** Scenario of X8: deleting the Tee removes its variant with it. *)
Lemma delete_product_witness :
  reachable (scenario_db tee_catalog) /\
  In 1 (map Products.id (products (scenario_db tee_catalog))) /\
  exists d',
    exec (DeleteProduct 1) (scenario_db tee_catalog) = Ok d' /\
    products d' = [] /\ product_variants d' = [] /\
    map Sizes.name (sizes d') = ["Small"].
Proof.
  assert (Hthere : In 1 (map Products.id
                           (products (scenario_db tee_catalog)))).
  { vm_compute. auto. }
  split; [exact tee_db_reachable | split; [exact Hthere |]].
  destruct (delete_product_cascades (scenario_db tee_catalog) 1
              tee_db_reachable Hthere)
    as [Heffect Hdone].
  destruct Hdone as [d' Hex].
  - intros c Hc. vm_compute in Hc. contradiction.
  - intros v _ _. repeat split; intros x Hx; vm_compute in Hx;
      contradiction.
  - destruct (Heffect d' Hex)
      as [Hproducts [Hvariants [_ [_ [_ [_ [Hsizes _]]]]]]].
    exists d'. split; [exact Hex |].
    rewrite Hproducts, Hvariants, Hsizes. vm_compute. auto.
Defined.

(** Scenario of X9: the size Small cannot be deleted while the Tee variant
    has it. *)
Lemma variant_size_and_color_witness :
  reachable (scenario_db tee_catalog) /\
  (exists e, exec (DeleteSize 1) (scenario_db tee_catalog) = Err e) /\
  state_after (DeleteSize 1) (scenario_db tee_catalog)
  = scenario_db tee_catalog.
Proof.
  split; [exact tee_db_reachable |].
  destruct (variant_size_and_color_exist (scenario_db tee_catalog)
              tee_db_reachable)
    as [_ [_ Hdelete]].
  apply (Hdelete tee_variant). vm_compute. auto.
Defined.

(** Scenario of X10: a second size called Small is rejected. *)
Lemma size_and_color_names_witness :
  reachable (scenario_db tee_catalog) /\
  (exists e,
     exec (InsertSize (Sizes.mk 2 "Small" "Pants" "EU"))
       (scenario_db tee_catalog) = Err e) /\
  state_after (InsertSize (Sizes.mk 2 "Small" "Pants" "EU"))
    (scenario_db tee_catalog) = scenario_db tee_catalog.
Proof.
  split; [exact tee_db_reachable |].
  destruct (size_and_color_names_unique (scenario_db tee_catalog)
              tee_db_reachable)
    as [_ [_ [Hinsert _]]].
  apply (Hinsert (Sizes.mk 2 "Small" "Pants" "EU")
           (Sizes.mk 1 "Small" "Shirt" "US")).
  - vm_compute. auto.
  - reflexivity.
Defined.

(** Scenario of X11: the identity u1 cannot be deleted while its profile
    and its order are there. *)
Lemma identities_witness :
  reachable (scenario_db order_book) /\
  (exists e, exec (DeleteAuthUser "u1") (scenario_db order_book) = Err e) /\
  state_after (DeleteAuthUser "u1") (scenario_db order_book)
  = scenario_db order_book.
Proof.
  split; [exact order_db_reachable |].
  destruct (identities_outlive_their_rows (scenario_db order_book)
              order_db_reachable)
    as [_ [_ [_ Hdelete]]].
  apply Hdelete. left. vm_compute. auto.
Defined.

(** Scenario of X12: item_1 has its order order_1, owned by u1; an item
    for the unknown order_9 is rejected. *)
Lemma order_item_parent_witness :
  reachable (scenario_db order_book) /\
  (exists o,
     In o (orders (scenario_db order_book)) /\ Orders.id o = "order_1" /\
     parent_order (scenario_db order_book) item_1 = Some o /\
     order_item_owner (scenario_db order_book) item_1
     = Some (Orders.user_id o)) /\
  (exists e,
     exec (InsertOrderItem
             (OrderItems.mk "item_9" (Some "order_9") None None None None
                None))
       (scenario_db order_book) = Err e).
Proof.
  split; [exact order_db_reachable |].
  destruct (order_item_has_parent_order (scenario_db order_book)
              order_db_reachable)
    as [Hparent Hinsert].
  split.
  - apply (Hparent item_1 "order_1"); [vm_compute; auto | reflexivity].
  - apply (Hinsert
             (OrderItems.mk "item_9" (Some "order_9") None None None None
                None) "order_9" eq_refl).
    vm_compute. intuition discriminate.
Defined.

(** Scenario of X13: the status name created (number 2) is deleted while
    order_1 carries that status; the orders stay. *)
Lemma order_statuses_witness :
  reachable (scenario_db order_book) /\
  exists d',
    exec (DeleteOrderStatus 2) (scenario_db order_book) = Ok d' /\
    ~ In "created" (map OrderStatuses.name (order_statuses d')) /\
    orders d' = orders (scenario_db order_book).
Proof.
  split; [exact order_db_reachable |].
  destruct (order_statuses_not_referenced (scenario_db order_book) 2
              order_db_reachable)
    as [d' [Hex [Hstatuses [Horders _]]]].
  exists d'. split; [exact Hex | split; [| exact Horders]].
  rewrite Hstatuses. vm_compute. intuition discriminate.
Defined.

(** Scenario of X14: the Tee cannot be deleted once its variant has a
    price. *)
Lemma delete_product_blocked_witness :
  reachable (scenario_db priced_catalog) /\
  (exists e, exec (DeleteProduct 1) (scenario_db priced_catalog) = Err e) /\
  state_after (DeleteProduct 1) (scenario_db priced_catalog)
  = scenario_db priced_catalog.
Proof.
  split; [exact priced_db_reachable |].
  apply (delete_product_blocked (scenario_db priced_catalog) 1 tee_variant
           priced_db_reachable).
  - vm_compute. auto.
  - reflexivity.
  - left. eexists. split; [vm_compute; left; reflexivity | reflexivity].
Defined.

(** Scenario of X16: a second order called order_1 is rejected. *)
Lemma order_ids_witness :
  reachable (scenario_db order_book) /\
  (exists e,
     exec (InsertOrder
             (new_order 0 "order_1" "u2" None None None Default None))
       (scenario_db order_book) = Err e) /\
  state_after
    (InsertOrder (new_order 0 "order_1" "u2" None None None Default None))
    (scenario_db order_book) = scenario_db order_book.
Proof.
  split; [exact order_db_reachable |].
  destruct (order_ids_unique (scenario_db order_book) order_db_reachable)
    as [_ [_ [Hinsert _]]].
  apply (Hinsert (new_order 0 "order_1" "u2" None None None Default None)
           (new_order 0 "order_1" "u1" (Some "created") (Some 2500)
              (Some "usd") Default None)).
  - vm_compute. auto.
  - reflexivity.
Defined.

(** Scenario of X17: order_1 cannot be deleted once its creation is
    logged. *)
Lemma delete_order_blocked_witness :
  In order_1_created (order_changes (scenario_db logged_book)) /\
  (exists e, exec (DeleteOrder "order_1") (scenario_db logged_book) = Err e)
  /\
  state_after (DeleteOrder "order_1") (scenario_db logged_book)
  = scenario_db logged_book.
Proof.
  assert (Hin : In order_1_created
                  (order_changes (scenario_db logged_book))).
  { vm_compute. auto. }
  split; [exact Hin |].
  exact (delete_order_blocked (scenario_db logged_book) "order_1"
           order_1_created Hin eq_refl).
Defined.
